(** * Polling-place simulation (simulate.py): model and verified properties

    The development follows simulate.py: the classes [Voter], [Precinct]
    and [VotingBooths], then [find_avg_wait_time] and
    [find_percent_split_ticket].  Python floats are IEEE 754 binary64
    values, modelled with the Standard Library's [spec_float] and its
    operations at precision 53; Python ints are [Z]. *)

From Stdlib Require Import ZArith List Bool Lia.
From Stdlib Require Strings.String.
Import String.StringSyntax.
From Stdlib Require Import Permutation.
From Stdlib Require Import Floats.SpecFloat.
Import ListNotations.
Open Scope string_scope.
Open Scope Z_scope.

(** ** Python floats *)

Definition float := spec_float.

Definition prec : Z := 53.
Definition emax : Z := 1024.

Definition fadd : float -> float -> float := SFadd prec emax.
Definition fsub : float -> float -> float := SFsub prec emax.
Definition fdiv : float -> float -> float := SFdiv prec emax.

(** [x < y], [x <= y], [x > y], [x >= y] and [x == y] on floats. *)
Definition flt : float -> float -> bool := SFltb.
Definition fle : float -> float -> bool := SFleb.
Definition fgt (x y : float) : bool := SFltb y x.
Definition fge (x y : float) : bool := SFleb y x.
Definition feq : float -> float -> bool := SFeqb.

(** Conversion of an int to the nearest float (ties to even), as done by
    mixed int/float arithmetic. *)
Definition float_of_int (n : Z) : float := binary_normalize prec emax n 0 false.

Definition fzero : float := S754_zero false.

Definition is_nan (x : float) : bool :=
  match x with S754_nan => true | _ => false end.

Definition is_finite (x : float) : bool :=
  match x with S754_zero _ | S754_finite _ _ _ => true | _ => false end.

(** Comparison of a float with an int.  Python compares the two exactly,
    without rounding the int to a float. *)
Definition float_compare_int (x : float) (n : Z) : option comparison :=
  match x with
  | S754_nan => None
  | S754_infinity s => Some (if s then Lt else Gt)
  | S754_zero _ => Some (0 ?= n)
  | S754_finite s m e =>
      let v := if s then Zneg m else Zpos m in
      Some (if 0 <=? e then (v * 2 ^ e ?= n) else (v ?= n * 2 ^ (- e)))
  end.

Definition fgt_int (x : float) (n : Z) : bool :=
  match float_compare_int x n with Some Gt => true | _ => false end.

Definition fle_int (x : float) (n : Z) : bool :=
  match float_compare_int x n with Some (Lt | Eq) => true | _ => false end.

(** ** Outcomes of a call

    A call returns a value, raises an exception, or never hands control
    back: [queue.PriorityQueue.put] and [get] are called with their default
    [block=True] and no timeout, so on a full (respectively empty) queue
    they wait for another thread for ever. *)

Inductive exn : Type :=
| ZeroDivisionError
| IndexError
| TypeError.

Inductive outcome (A : Type) : Type :=
| Returns (a : A)
| Raises (e : exn)
| Blocks.

Arguments Returns {A} a.
Arguments Raises {A} e.
Arguments Blocks {A}.

Definition bind {A B : Type} (c : outcome A) (k : A -> outcome B) : outcome B :=
  match c with
  | Returns a => k a
  | Raises e => Raises e
  | Blocks => Blocks
  end.

Notation "x <- c ;; k" := (bind c (fun x => k))
  (at level 61, c at next level, right associativity).
Notation "' p <- c ;; k" := (bind c (fun p => k))
  (at level 61, p pattern, c at next level, right associativity).

(** ** Built-ins used by the program *)

(** Stable insertion into an ascending list, with [<] as the only test. *)
Fixpoint insort (x : float) (l : list float) : list float :=
  match l with
  | [] => [x]
  | y :: r => if flt x y then x :: y :: r else y :: insort x r
  end.

(** [list.sort()]: a stable sort that compares with [<]. *)
Definition py_sort (l : list float) : list float :=
  fold_left (fun acc x => insort x acc) l [].

(** [l[i]] with Python's negative indices and [IndexError]. *)
Definition py_index {A : Type} (l : list A) (i : Z) : outcome A :=
  let n := Z.of_nat (length l) in
  let j := if i <? 0 then i + n else i in
  if (0 <=? j) && (j <? n) then
    match nth_error l (Z.to_nat j) with
    | Some x => Returns x
    | None => Raises IndexError
    end
  else Raises IndexError.

(** [sum(l)]: the items are added from left to right, starting from 0.  An
    item [None] cannot be added to a number. *)
Fixpoint py_sum_from (acc : float) (l : list (option float)) : outcome float :=
  match l with
  | [] => Returns acc
  | Some x :: r => py_sum_from (fadd acc x) r
  | None :: _ => Raises TypeError
  end.

Definition py_sum (l : list (option float)) : outcome float :=
  py_sum_from fzero l.

(** [s / len(l)]: true division by the length of a list. *)
Definition py_div_len (s : float) (n : nat) : outcome float :=
  match n with
  | O => Raises ZeroDivisionError
  | S _ => Returns (fdiv s (float_of_int (Z.of_nat n)))
  end.

(** [range(n)] as the list [0; 1; ...; n-1] (empty when [n <= 0]). *)
Definition py_range (n : Z) : list Z :=
  map Z.of_nat (seq 0 (Z.to_nat n)).

(** ** class Voter *)

Record Voter : Type := {
  arrival_time : float;
  voting_duration : float;
  start_time : option float;
  departure_time : option float
}.

(** [Voter.__init__] *)
Definition new_Voter (arrival voting : float) : Voter :=
  {| arrival_time := arrival; voting_duration := voting;
     start_time := None; departure_time := None |}.

(** [Voter.get_wait] *)
Definition get_wait (self : Voter) : option float :=
  match start_time self with
  | None => None
  | Some s => Some (fsub s (arrival_time self))
  end.

(** ** queue.PriorityQueue

    The standard library's bounded priority queue, by its documented
    behaviour: [maxsize <= 0] means unbounded, [full] is
    [0 < maxsize <= qsize], entries are retrieved lowest first, [put] on a
    full queue and [get] on an empty one block.  The entries are kept in
    ascending order, so the lowest one is the head. *)

Record PriorityQueue : Type := {
  maxsize : Z;
  entries : list float
}.

Definition qsize (q : PriorityQueue) : Z := Z.of_nat (length (entries q)).

Definition pq_full (q : PriorityQueue) : bool :=
  (0 <? maxsize q) && (maxsize q <=? qsize q).

Definition pq_put (q : PriorityQueue) (item : float) : outcome PriorityQueue :=
  if (0 <? maxsize q) && (maxsize q <=? qsize q) then Blocks
  else Returns {| maxsize := maxsize q; entries := insort item (entries q) |}.

Definition pq_get (q : PriorityQueue) : outcome (float * PriorityQueue) :=
  match entries q with
  | [] => Blocks
  | item :: rest => Returns (item, {| maxsize := maxsize q; entries := rest |})
  end.

(** ** class VotingBooths *)

Definition VotingBooths : Type := PriorityQueue.

(** [VotingBooths.__init__] *)
Definition new_VotingBooths (num_booths : Z) : VotingBooths :=
  {| maxsize := num_booths; entries := [] |}.

(** [VotingBooths.full] *)
Definition full (self : VotingBooths) : bool := pq_full self.

(** [VotingBooths.enter].  The queue first waits for a free slot and only
    then stores the item.  A departure time that is still [None] is not a
    float that can be ordered with the entries: Python raises [TypeError]
    when it first compares it with one.  The simulator only calls [enter]
    once the departure time is set. *)
Definition enter (self : VotingBooths) (voter : Voter) : outcome VotingBooths :=
  if pq_full self then Blocks
  else match departure_time voter with
       | Some d => pq_put self d
       | None => Raises TypeError
       end.

(** [VotingBooths.depart] *)
Definition depart (self : VotingBooths) : outcome (float * VotingBooths) :=
  pq_get self.

(** ** class Precinct *)

Record Precinct : Type := {
  name : String.string;
  hours_open : Z;
  max_num_voters : Z;
  num_booths : Z;
  arrival_rate : float;
  voting_duration_rate : float
}.

(** [Precinct.simulate_single_vote]: the voter and the booths are updated
    in place; the updated objects are returned. *)
Definition simulate_single_vote (self : Precinct) (voter : Voter)
    (booths : VotingBooths) : outcome (Voter * VotingBooths) :=
  '(start, booths1) <-
     (if negb (full booths) then Returns (arrival_time voter, booths)
      else
        '(earliest_departure, booths0) <- depart booths ;;
        if flt earliest_departure (arrival_time voter)
        then Returns (arrival_time voter, booths0)
        else Returns (earliest_departure, booths0)) ;;
  let voter1 :=
    {| arrival_time := arrival_time voter;
       voting_duration := voting_duration voter;
       start_time := Some start;
       departure_time := Some (fadd start (voting_duration voter)) |} in
  booths2 <- enter booths1 voter1 ;;
  Returns (voter1, booths2).

(** The precinct dictionaries handled by [find_avg_wait_time] and
    [find_percent_split_ticket]. *)
Record precinct_dict : Type := {
  d_name : String.string;
  d_hours_open : Z;
  d_num_voters : Z;
  d_num_booths : Z;
  d_arrival_rate : float;
  d_voting_duration_rate : float;
  d_percent_straight_ticket : float;
  d_straight_ticket_duration : float
}.

(** A Python number: [find_percent_split_ticket] returns a float percentage
    or the int [1]. *)
Inductive number : Type :=
| Int (n : Z)
| Float (x : float).

(** The module-level generator of [random] and the helper
    [util.gen_voter_parameters] that draws from it are not part of
    simulate.py.  They form an interface here: [rng] is the generator's
    state, [random_seed] the state installed by [random.seed], and
    [gen_voter_parameters] returns the pair (gap, voting duration) together
    with the state it leaves behind. *)
Class RandomSource : Type := {
  rng : Type;
  random_seed : Z -> rng;
  gen_voter_parameters :
    float -> float -> float -> float -> rng -> (float * float) * rng
}.

Section Simulation.

Context {R : RandomSource}.

(** [Precinct.next_voter] *)
Definition next_voter (self : Precinct) (time : float)
    (percent_straight_ticket straight_ticket_duration : float) (g : rng)
  : Voter * rng :=
  let '((gap, voting_duration), g') :=
    gen_voter_parameters (arrival_rate self) (voting_duration_rate self)
      percent_straight_ticket straight_ticket_duration g in
  let arrival_time := fadd time gap in
  (new_Voter arrival_time voting_duration, g').

(** The variables of the loop of [Precinct.simulate]. *)
Record sim_state : Type := {
  st_time : float;
  st_rng : rng;
  st_booths : VotingBooths;
  st_voters : list Voter
}.

(** The [for] loop of [Precinct.simulate], for [n] more values of [i].
    [break] leaves the loop with the voters and booths as they are. *)
Fixpoint simulate_loop (self : Precinct)
    (percent_straight_ticket straight_ticket_duration : float)
    (n : nat) (st : sim_state) : outcome sim_state :=
  match n with
  | O => Returns st
  | S n' =>
      let '(voter, g) :=
        next_voter self (st_time st) percent_straight_ticket
          straight_ticket_duration (st_rng st) in
      let time := arrival_time voter in
      let closing_time := hours_open self * 60 in
      if fgt_int time closing_time then
        Returns {| st_time := time; st_rng := g;
                   st_booths := st_booths st; st_voters := st_voters st |}
      else
        '(voter', booths') <- simulate_single_vote self voter (st_booths st) ;;
        simulate_loop self percent_straight_ticket straight_ticket_duration n'
          {| st_time := time; st_rng := g;
             st_booths := booths'; st_voters := st_voters st ++ [voter'] |}
  end.

Definition sim_init (self : Precinct) (seed : Z) : sim_state :=
  {| st_time := fzero; st_rng := random_seed seed;
     st_booths := new_VotingBooths (num_booths self); st_voters := [] |}.

(** [Precinct.simulate].  [random.seed(seed)] replaces the generator's
    state, so the result does not depend on the state before the call. *)
Definition simulate (self : Precinct)
    (percent_straight_ticket straight_ticket_duration : float) (seed : Z)
  : outcome (list Voter) :=
  st <- simulate_loop self percent_straight_ticket straight_ticket_duration
          (Z.to_nat (max_num_voters self)) (sim_init self seed) ;;
  Returns (st_voters st).

(** The precinct object built at the start of [find_avg_wait_time]. *)
Definition Precinct_of (precinct : precinct_dict) : Precinct :=
  {| name := d_name precinct; hours_open := d_hours_open precinct;
     max_num_voters := d_num_voters precinct;
     num_booths := d_num_booths precinct;
     arrival_rate := d_arrival_rate precinct;
     voting_duration_rate := d_voting_duration_rate precinct |}.

(** One pass through the body of the loop of [find_avg_wait_time]:
    the average wait of trial [i]. *)
Definition trial_avg_wait (precinct : precinct_dict)
    (percent_straight_ticket : float) (initial_seed i : Z) : outcome float :=
  voters <- simulate (Precinct_of precinct) percent_straight_ticket
              (d_straight_ticket_duration precinct) (initial_seed + i) ;;
  total <- py_sum (map get_wait voters) ;;
  py_div_len total (length voters).

(** The loop of [find_avg_wait_time] over the values [idx] of [i]. *)
Fixpoint trials_loop (precinct : precinct_dict)
    (percent_straight_ticket : float) (initial_seed : Z)
    (idx : list Z) (avg_wait_lst : list float) : outcome (list float) :=
  match idx with
  | [] => Returns avg_wait_lst
  | i :: idx' =>
      avg_wait <- trial_avg_wait precinct percent_straight_ticket initial_seed i ;;
      trials_loop precinct percent_straight_ticket initial_seed idx'
        (avg_wait_lst ++ [avg_wait])
  end.

(** The end of [find_avg_wait_time]: sort, then take the element at
    index [ntrials // 2]. *)
Definition sorted_middle (avg_wait_lst : list float) (ntrials : Z)
  : outcome float :=
  py_index (py_sort avg_wait_lst) (ntrials / 2).

(** [find_avg_wait_time] *)
Definition find_avg_wait_time (precinct : precinct_dict)
    (percent_straight_ticket : float) (ntrials initial_seed : Z)
  : outcome float :=
  avg_wait_lst <- trials_loop precinct percent_straight_ticket initial_seed
                    (py_range ntrials) [] ;;
  sorted_middle avg_wait_lst ntrials.

(** [i / 10] and [1 - percent_split_ticket] in the loop of
    [find_percent_split_ticket]. *)
Definition percent_split_ticket_of (i : Z) : float :=
  fdiv (float_of_int i) (float_of_int 10).

Definition percent_straight_ticket_of (i : Z) : float :=
  fsub (float_of_int 1) (percent_split_ticket_of i).

(** The loop of [find_percent_split_ticket] over the values [idx] of [i];
    [Some] is the pair at which it breaks with [found = True]. *)
Fixpoint split_loop (precinct : precinct_dict) (target_wait_time : float)
    (ntrials seed : Z) (idx : list Z) : outcome (option (float * float)) :=
  match idx with
  | [] => Returns None
  | i :: idx' =>
      let percent_split_ticket := percent_split_ticket_of i in
      let percent_straight_ticket := fsub (float_of_int 1) percent_split_ticket in
      avg_wait_time <- find_avg_wait_time precinct percent_straight_ticket
                         ntrials seed ;;
      if fgt avg_wait_time target_wait_time
      then Returns (Some (percent_split_ticket, avg_wait_time))
      else split_loop precinct target_wait_time ntrials seed idx'
  end.

(** [find_percent_split_ticket] *)
Definition find_percent_split_ticket (precinct : precinct_dict)
    (target_wait_time : float) (ntrials seed : Z)
  : outcome (number * option float) :=
  found <- split_loop precinct target_wait_time ntrials seed (py_range 11) ;;
  match found with
  | Some (percent_split_ticket, avg_wait_time) =>
      Returns (Float percent_split_ticket, Some avg_wait_time)
  | None => Returns (Int 1, None)
  end.

End Simulation.

(** ** Notions used to state the properties *)

(** No entry is a NaN. *)
Definition no_nan (l : list float) : bool := forallb (fun x => negb (is_nan x)) l.

(** Each entry is [<=] the next one. *)
Fixpoint ascending (l : list float) : bool :=
  match l with
  | x :: (y :: _) as r => fle x y && ascending r
  | _ => true
  end.

(** The pool holds no more than its capacity, when it has one. *)
Definition bounded (b : VotingBooths) : Prop :=
  maxsize b <= 0 \/ qsize b <= maxsize b.

(** The voter has been given a booth: its scheduling fields are set, and
    the departure time is the start time plus the voting duration. *)
Definition admitted (v : Voter) : Prop :=
  exists start, start_time v = Some start /\
    departure_time v = Some (fadd start (voting_duration v)).

(** The voter starts no earlier than it arrives and leaves after its
    voting duration. *)
Definition well_scheduled (v : Voter) : Prop :=
  exists start departure,
    start_time v = Some start /\ departure_time v = Some departure /\
    fge start (arrival_time v) = true /\
    departure = fadd start (voting_duration v) /\
    feq departure (fadd start (voting_duration v)) = true.

(** A pool as the simulator builds it: bounded by its capacity when it has
    one, with real departure times kept lowest first. *)
Definition pool_ok (b : VotingBooths) : bool :=
  ((maxsize b <=? 0) || (qsize b <=? maxsize b))
  && no_nan (entries b) && ascending (entries b).

(** Both scheduling fields unset, or both set. *)
Definition both_or_neither (v : Voter) : bool :=
  match start_time v, departure_time v with
  | None, None | Some _, Some _ => true
  | _, _ => false
  end.

(** The voter as [next_voter] created it. *)
Definition as_generated (v : Voter) : Voter :=
  new_Voter (arrival_time v) (voting_duration v).

(** The voters of [l] up to, and without, the first one that arrives after
    [closing_time]. *)
Fixpoint until_closed (closing_time : Z) (l : list Voter) : list Voter :=
  match l with
  | [] => []
  | v :: r =>
      if fgt_int (arrival_time v) closing_time then []
      else v :: until_closed closing_time r
  end.

(** The wait [startTime - arrivalTime] of an admitted voter. *)
Definition wait_of (v : Voter) : float :=
  match start_time v with
  | Some s => fsub s (arrival_time v)
  | None => S754_nan
  end.

(** The arithmetic mean of the waits: their sum divided by their number. *)
Definition mean_wait (voters : list Voter) : float :=
  fdiv (fold_left fadd (map wait_of voters) fzero)
       (float_of_int (Z.of_nat (length voters))).

(** The value a call returns, when it returns. *)
Definition returned {A : Type} (c : outcome (list A)) : list A :=
  match c with Returns a => a | _ => [] end.

(** The comparison of two floats that are not NaN is the lexicographic
    order of these keys. *)
Definition fkey (x : float) : Z * Z * Z :=
  match x with
  | S754_nan => (0, 0, 0)
  | S754_infinity true => (-2, 0, 0)
  | S754_infinity false => (2, 0, 0)
  | S754_zero _ => (0, 0, 0)
  | S754_finite true m e => (-1, - e, Zneg m)
  | S754_finite false m e => (1, e, Zpos m)
  end.

Definition key_le (k1 k2 : Z * Z * Z) : Prop :=
  let '(a1, b1, c1) := k1 in
  let '(a2, b2, c2) := k2 in
  a1 < a2 \/ (a1 = a2 /\ (b1 < b2 \/ (b1 = b2 /\ c1 <= c2))).

Section Specification.

Context {R : RandomSource}.

(** The voters that [n] successive calls of [next_voter] create, each
    with the arrival time of the one before as [time]. *)
Fixpoint generated (self : Precinct)
    (percent_straight_ticket straight_ticket_duration : float)
    (n : nat) (time : float) (g : rng) : list Voter :=
  match n with
  | O => []
  | S n' =>
      let '(voter, g') :=
        next_voter self time percent_straight_ticket
          straight_ticket_duration g in
      voter :: generated self percent_straight_ticket
                 straight_ticket_duration n' (arrival_time voter) g'
  end.

(** Every gap and voting duration drawn for these arguments is finite. *)
Definition draws_finite (self : Precinct)
    (percent_straight_ticket straight_ticket_duration : float) : Prop :=
  forall g : rng,
    let d := fst (gen_voter_parameters (arrival_rate self)
                    (voting_duration_rate self) percent_straight_ticket
                    straight_ticket_duration g) in
    is_finite (fst d) = true /\ is_finite (snd d) = true.

(** Every gap drawn for these arguments is strictly positive. *)
Definition gaps_positive (self : Precinct)
    (percent_straight_ticket straight_ticket_duration : float) : Prop :=
  forall g : rng,
    flt fzero (fst (fst (gen_voter_parameters (arrival_rate self)
                           (voting_duration_rate self)
                           percent_straight_ticket
                           straight_ticket_duration g))) = true.

(** The voters of the trial run with seed [initial_seed + i]. *)
Definition trial_voters (precinct : precinct_dict)
    (percent_straight_ticket : float) (initial_seed i : Z) : list Voter :=
  returned (simulate (Precinct_of precinct) percent_straight_ticket
              (d_straight_ticket_duration precinct) (initial_seed + i)).

(** The result of the aggregator for split-ticket step [i]. *)
Definition step_wait (precinct : precinct_dict) (ntrials seed i : Z)
  : outcome float :=
  find_avg_wait_time precinct (percent_straight_ticket_of i) ntrials seed.

End Specification.

(** ** A scripted random source

    A deterministic instance of the interface, used to run the program on
    concrete inputs: every gap is 1 minute; the voting duration is the
    straight-ticket duration when at least 85 percent of the voters vote
    straight ticket, and otherwise depends on the seed only. *)

Definition script_duration (seed : Z) : Z :=
  if seed =? 10 then 7 else if seed =? 11 then 3 else if seed =? 12 then 5
  else if seed =? 21 then 5 else if seed =? 22 then 7 else if seed =? 23 then 9
  else 3.

Definition script_gen (arrival voting percent_straight_ticket
    straight_ticket_duration : float) (g : Z * nat)
  : (float * float) * (Z * nat) :=
  let '(seed, k) := g in
  ((float_of_int 1,
    if fle (fdiv (float_of_int 85) (float_of_int 100)) percent_straight_ticket
    then straight_ticket_duration
    else float_of_int (script_duration seed)),
   (seed, S k)).

Definition script : RandomSource := {|
  rng := (Z * nat)%type;
  random_seed := fun seed => (seed, O);
  gen_voter_parameters := script_gen
|}.

(** A precinct with one booth, open one hour, with at most two voters. *)
Definition one_booth : precinct_dict := {|
  d_name := "one booth";
  d_hours_open := 1;
  d_num_voters := 2;
  d_num_booths := 1;
  d_arrival_rate := float_of_int 1;
  d_voting_duration_rate := float_of_int 1;
  d_percent_straight_ticket := fzero;
  d_straight_ticket_duration := fzero
|}.

(** The same precinct with no booth, and with doors that never open. *)
Definition no_booth : precinct_dict := {|
  d_name := "no booth";
  d_hours_open := 1;
  d_num_voters := 2;
  d_num_booths := 0;
  d_arrival_rate := float_of_int 1;
  d_voting_duration_rate := float_of_int 1;
  d_percent_straight_ticket := fzero;
  d_straight_ticket_duration := fzero
|}.

Definition never_open : precinct_dict := {|
  d_name := "never open";
  d_hours_open := 0;
  d_num_voters := 2;
  d_num_booths := 1;
  d_arrival_rate := float_of_int 1;
  d_voting_duration_rate := float_of_int 1;
  d_percent_straight_ticket := fzero;
  d_straight_ticket_duration := fzero
|}.

(** A precinct with as many booths as voters. *)
Definition many_booths : precinct_dict := {|
  d_name := "many booths";
  d_hours_open := 1;
  d_num_voters := 3;
  d_num_booths := 3;
  d_arrival_rate := float_of_int 1;
  d_voting_duration_rate := float_of_int 1;
  d_percent_straight_ticket := fzero;
  d_straight_ticket_duration := fzero
|}.

(** The loop variables of the trial of [one_booth] with seed 10 once the
    first voter has been admitted: the only booth is taken until minute 8. *)
Definition after_first_voter : @sim_state script :=
  @Build_sim_state script
    (float_of_int 1)
    (10, 1%nat)
    {| maxsize := 1; entries := [float_of_int 8] |}
    [ {| arrival_time := float_of_int 1; voting_duration := float_of_int 7;
         start_time := Some (float_of_int 1);
         departure_time := Some (float_of_int 8) |} ].

(** A voter not yet admitted, arriving at minute 2 to vote for 3 minutes,
    and the same voter once scheduled from minute 8 to minute 11. *)
Definition second_voter : Voter :=
  new_Voter (float_of_int 2) (float_of_int 3).

Definition second_voter_scheduled : Voter := {|
  arrival_time := float_of_int 2; voting_duration := float_of_int 3;
  start_time := Some (float_of_int 8);
  departure_time := Some (float_of_int 11)
|}.

(** ** Further notions used to state properties *)

(** The sign bit is clear and the float is not NaN: [+0.0], a positive
    number or [+inf]. *)
Definition sign_clear (x : float) : bool :=
  match x with
  | S754_zero false | S754_finite false _ _ | S754_infinity false => true
  | _ => false
  end.

(** [rel] holds between every element of the list and the next one. *)
Fixpoint consecutive {A : Type} (rel : A -> A -> Prop) (l : list A) : Prop :=
  match l with
  | v :: r =>
      match r with
      | w :: _ => rel v w /\ consecutive rel r
      | [] => True
      end
  | [] => True
  end.

(** The second voter starts once the first has left. *)
Definition leaves_before (v w : Voter) : Prop :=
  exists departure start,
    departure_time v = Some departure /\ start_time w = Some start /\
    fle departure start = true.

(** The precinct with another bound on the number of voters, and with
    other opening hours. *)
Definition with_max_num_voters (self : Precinct) (n : Z) : Precinct :=
  {| name := name self; hours_open := hours_open self;
     max_num_voters := n; num_booths := num_booths self;
     arrival_rate := arrival_rate self;
     voting_duration_rate := voting_duration_rate self |}.

Definition with_hours_open (self : Precinct) (h : Z) : Precinct :=
  {| name := name self; hours_open := h;
     max_num_voters := max_num_voters self; num_booths := num_booths self;
     arrival_rate := arrival_rate self;
     voting_duration_rate := voting_duration_rate self |}.

(** The number of entries of [l] that satisfy [f]. *)
Definition count (f : float -> bool) (l : list float) : Z :=
  Z.of_nat (length (filter f l)).

(** ** cmd: the command-line entry point

    [cmd] prints its results.  A printed line is represented by its format
    string and the values that fill it, a run of [cmd] by the lines it has
    printed and by the way it ends.  Loading the precincts file
    ([util.load_precincts]) is not part of simulate.py: the precincts and
    the seed it returns are arguments here. *)

Definition fmul : float -> float -> float := SFmul prec emax.

Inductive line : Type :=
| Blank                                   (* print() *)
| PrecinctHeader (name : String.string)   (* "PRECINCT '{}'" *)
| VoterRows (voters : list Voter)         (* util.print_voters(voters) *)
| ErrorNoSuchPrecinct (name : String.string)
      (* "ERROR: Precinct file specified a '{}' precinct" *)
| ErrorReturnedNone
      (* "       But simulate_election_day returned no such precinct" *)
| NoVotersVoted (name : String.string)
      (* "Precinct '{}': No voters voted." *)
| VotersVoted (n : nat) (pl : String.string)
      (* "- {} voter{} voted." *)
| PollsClosed (closing last_depart : float)
      (* "- Polls closed at {} and last voter departed at {:.2f}." *)
| AvgWaitTime (avg_wt : float)            (* "- Avg wait time: {:.2f}" *)
| AlwaysBelow (target_wait_time : float) (name : String.string)
      (* "Waiting times are always below {:.2f} in precinct '{}'" *)
| ExceedsWaitingTime (name : String.string) (avg_wt : float)
    (percent : number).
      (* "Precinct '{}' exceeds average waiting time of {:.2f} with {}
          percent split-ticket voters" *)

Inductive run : Type :=
| Done (out : list line)                    (* [cmd] returns *)
| Fails (out : list line) (e : exn)         (* an exception ends it *)
| Exits (out : list line) (code : Z)        (* [sys.exit(code)] *)
| Hangs (out : list line).                  (* a call never returns *)

(** The run that first prints [out] and goes on as [r]. *)
Definition after (out : list line) (r : run) : run :=
  match r with
  | Done out' => Done (out ++ out')
  | Fails out' e => Fails (out ++ out') e
  | Exits out' code => Exits (out ++ out') code
  | Hangs out' => Hangs (out ++ out')
  end.

(** The dictionary [voters] of [cmd]: precinct names to lists of voters,
    in insertion order; assigning to a name already present replaces its
    value where it stands. *)
Definition voters_dict : Type := list (String.string * list Voter).

Fixpoint dict_set (k : String.string) (v : list Voter) (d : voters_dict)
  : voters_dict :=
  match d with
  | [] => [(k, v)]
  | (k', v') :: r =>
      if String.eqb k k' then (k, v) :: r else (k', v') :: dict_set k v r
  end.

Fixpoint dict_get (k : String.string) (d : voters_dict)
  : option (list Voter) :=
  match d with
  | [] => None
  | (k', v') :: r => if String.eqb k k' then Some v' else dict_get k r
  end.

(** [percent == 0] and [percent * 100] on the number returned by the
    search. *)
Definition number_is_zero (x : number) : bool :=
  match x with
  | Int n => n =? 0
  | Float x =>
      match float_compare_int x 0 with Some Eq => true | _ => false end
  end.

Definition number_times_100 (x : number) : number :=
  match x with
  | Int n => Int (n * 100)
  | Float x => Float (fmul x (float_of_int 100))
  end.

(** [[v.start_time - v.arrival_time for v in pvoters]]: a start time that
    is still [None] cannot be subtracted from. *)
Fixpoint start_minus_arrival (pvoters : list Voter) : outcome (list float) :=
  match pvoters with
  | [] => Returns []
  | v :: r =>
      match start_time v with
      | None => Raises TypeError
      | Some s =>
          ws <- start_minus_arrival r ;;
          Returns (fsub s (arrival_time v) :: ws)
      end
  end.

Section Cmd.

Context {R : RandomSource}.

(** The first loop of [cmd]: one simulation per precinct, stored under the
    name of the precinct. *)
Fixpoint simulate_precincts (precincts : list precinct_dict) (seed : Z)
    (voters : voters_dict) : outcome voters_dict :=
  match precincts with
  | [] => Returns voters
  | p :: ps =>
      vs <- simulate (Precinct_of p) (d_percent_straight_ticket p)
              (d_straight_ticket_duration p) seed ;;
      simulate_precincts ps seed (dict_set (d_name p) vs voters)
  end.

(** The loop of [cmd] that prints the voters of every precinct. *)
Definition print_all_voters (voters : voters_dict) : list line :=
  flat_map (fun kv => [PrecinctHeader (fst kv); VoterRows (snd kv); Blank])
    voters.

(** One pass through the loop of [cmd] that prints the summaries: the
    lines printed for precinct [p] and the way the pass ends. *)
Definition print_summary (p : precinct_dict) (voters : voters_dict) : run :=
  let pname := d_name p in
  match dict_get pname voters with
  | None => Exits [ErrorNoSuchPrecinct pname; ErrorReturnedNone; Blank] (-1)
  | Some pvoters =>
      if (length pvoters =? 0)%nat then Done [NoVotersVoted pname]
      else
        let pl := if (1 <? length pvoters)%nat then "s" else "" in
        let closing := fmul (float_of_int (d_hours_open p)) (float_of_int 60) in
        match py_index pvoters (-1) with
        | Raises e => Fails [] e
        | Blocks => Hangs []
        | Returns last =>
            let last_depart := departure_time last in
            match (ws <- start_minus_arrival pvoters ;;
                   total <- py_sum (map Some ws) ;;
                   py_div_len total (length pvoters)) with
            | Raises e => Fails [] e
            | Blocks => Hangs []
            | Returns avg_wt =>
                let out := [PrecinctHeader pname;
                            VotersVoted (length pvoters) pl] in
                match last_depart with
                | None => Fails out TypeError
                | Some d =>
                    Done (out ++ [PollsClosed closing d; AvgWaitTime avg_wt;
                                  Blank])
                end
            end
        end
  end.

Fixpoint print_summaries (precincts : list precinct_dict)
    (voters : voters_dict) : run :=
  match precincts with
  | [] => Done []
  | p :: ps =>
      match print_summary p voters with
      | Done out => after out (print_summaries ps voters)
      | r => r
      end
  end.

(** [cmd] once the precincts file is loaded: [target_wait_time] is [None]
    when the option is absent. *)
Definition cmd (precincts : list precinct_dict) (seed : Z)
    (target_wait_time : option float) (print_voters : bool) : run :=
  match target_wait_time with
  | None =>
      match simulate_precincts precincts seed [] with
      | Raises e => Fails [] e
      | Blocks => Hangs []
      | Returns voters =>
          after [Blank]
            (if print_voters then Done (print_all_voters voters)
             else print_summaries precincts voters)
      end
  | Some target =>
      match py_index precincts 0 with
      | Raises e => Fails [] e
      | Blocks => Hangs []
      | Returns precinct =>
          match find_percent_split_ticket precinct target 20 seed with
          | Raises e => Fails [] e
          | Blocks => Hangs []
          | Returns (percent, avg_wt) =>
              if number_is_zero percent then
                Done [AlwaysBelow target (d_name precinct)]
              else
                match avg_wt with
                | None => Fails [] TypeError
                | Some a =>
                    Done [ExceedsWaitingTime (d_name precinct) a
                            (number_times_100 percent)]
                end
          end
      end
  end.

End Cmd.


(** * Facts about floats *)

Section FloatFacts.

Lemma iter_pos_inv {A : Type} (P : A -> Prop) (f : A -> A) :
  (forall a, P a -> P (f a)) -> forall n a, P a -> P (iter_pos f n a).
Proof.
  intros Hf n; induction n as [n IH | n IH | ]; intros a Ha; simpl; auto.
Qed.

Lemma shr_1_nonneg mrs : 0 <= shr_m mrs -> 0 <= shr_m (shr_1 mrs).
Proof.
  destruct mrs as [m r s]; simpl.
  destruct m as [ | [p | p | ] | [p | p | ] ]; simpl; lia.
Qed.

Lemma shr_nonneg mrs e n : 0 <= shr_m mrs -> 0 <= shr_m (fst (shr mrs e n)).
Proof.
  intros H; destruct n as [ | p | p]; simpl; auto.
  apply iter_pos_inv with (P := fun r => 0 <= shr_m r); auto using shr_1_nonneg.
Qed.

Lemma shr_record_of_loc_m m l : shr_m (shr_record_of_loc m l) = m.
Proof. destruct l as [ | [ | | ] ]; reflexivity. Qed.

Lemma shr_fexp_nonneg m e l :
  0 <= m -> 0 <= shr_m (fst (shr_fexp prec emax m e l)).
Proof.
  intros H; unfold shr_fexp; apply shr_nonneg.
  rewrite shr_record_of_loc_m; exact H.
Qed.

Lemma round_nearest_even_nonneg m l : 0 <= m -> 0 <= round_nearest_even m l.
Proof.
  intros H; destruct l as [ | [ | | ] ]; simpl; try lia.
  destruct (Z.even m); lia.
Qed.

(** Rounding a non-negative mantissa never yields a NaN. *)
Lemma binary_round_aux_not_nan s m e l :
  0 <= m -> is_nan (binary_round_aux prec emax s m e l) = false.
Proof.
  intros H; unfold binary_round_aux.
  pose proof (shr_fexp_nonneg m e l H) as H1.
  destruct (shr_fexp prec emax m e l) as [mrs' e']; simpl in H1.
  pose proof (shr_fexp_nonneg _ e' loc_Exact
                (round_nearest_even_nonneg _ (loc_of_shr_record mrs') H1)) as H2.
  destruct (shr_fexp prec emax _ e' loc_Exact) as [mrs'' e'']; simpl in H2.
  destruct (shr_m mrs'') as [ | p | p]; try reflexivity; try lia.
  destruct (e'' <=? emax - prec); reflexivity.
Qed.

Lemma binary_normalize_not_nan m e sz :
  is_nan (binary_normalize prec emax m e sz) = false.
Proof.
  destruct m as [ | p | p]; simpl; try reflexivity;
    unfold binary_round;
    destruct (shl_align _ _ _) as [mz ez];
    apply binary_round_aux_not_nan; lia.
Qed.

(** Adding a finite float to one that is not NaN does not give a NaN. *)
Lemma fadd_not_nan x y :
  is_nan x = false -> is_finite y = true -> is_nan (fadd x y) = false.
Proof.
  intros Hx Hy; unfold fadd.
  destruct x as [sx | sx | | sx mx ex]; try discriminate Hx;
    destruct y as [sy | sy | | sy my ey]; try discriminate Hy;
    try reflexivity.
  - destruct sx, sy; reflexivity.
  - cbv beta iota delta [SFadd]. apply binary_normalize_not_nan.
Qed.

Ltac key_side :=
  split; intros ?; first [reflexivity | discriminate | lia | (exfalso; lia)].

Ltac key_cases x y Hx Hy :=
  destruct x as [sx | sx | | sx mx ex]; try discriminate Hx;
  destruct y as [sy | sy | | sy my ey]; try discriminate Hy;
  try destruct sx; try destruct sy; simpl; try key_side;
  change (Pos.compare_cont Eq mx my) with (Pos.compare mx my);
  destruct (Z.compare_spec ex ey) as [E | E | E]; try key_side;
  destruct (Pos.compare_spec mx my) as [M | M | M]; simpl; key_side.

Lemma fle_key x y :
  is_nan x = false -> is_nan y = false ->
  (fle x y = true <-> key_le (fkey x) (fkey y)).
Proof. intros Hx Hy; unfold fle, SFleb; key_cases x y Hx Hy. Qed.

Lemma flt_key x y :
  is_nan x = false -> is_nan y = false ->
  (flt x y = false <-> key_le (fkey y) (fkey x)).
Proof. intros Hx Hy; unfold flt, SFltb; key_cases x y Hx Hy. Qed.

Lemma fle_refl x : is_nan x = false -> fle x x = true.
Proof.
  intros H; apply fle_key; auto.
  destruct (fkey x) as [[a b] c]; simpl; lia.
Qed.

Lemma fle_not_nan_l x y : fle x y = true -> is_nan x = false.
Proof. destruct x; auto; discriminate. Qed.

Lemma fle_not_nan_r x y : fle x y = true -> is_nan y = false.
Proof. destruct y; auto; destruct x; discriminate. Qed.

Lemma fle_trans x y z : fle x y = true -> fle y z = true -> fle x z = true.
Proof.
  intros Hxy Hyz.
  pose proof (fle_not_nan_l _ _ Hxy) as Hx.
  pose proof (fle_not_nan_r _ _ Hxy) as Hy.
  pose proof (fle_not_nan_r _ _ Hyz) as Hz.
  apply fle_key in Hxy; auto. apply fle_key in Hyz; auto.
  apply fle_key; auto.
  destruct (fkey x) as [[a1 b1] c1], (fkey y) as [[a2 b2] c2],
    (fkey z) as [[a3 b3] c3]; simpl in *; lia.
Qed.

(** On floats that are not NaN, [not (x < y)] is [y <= x]. *)
Lemma flt_false_fle x y :
  is_nan x = false -> is_nan y = false -> flt x y = false -> fle y x = true.
Proof.
  intros Hx Hy H. apply fle_key; auto. apply flt_key in H; auto.
Qed.

Lemma flt_true_fle x y : flt x y = true -> fle x y = true.
Proof.
  unfold flt, fle, SFltb, SFleb.
  destruct (SFcompare x y) as [[ | | ] | ]; auto.
Qed.

Lemma feq_refl x : is_nan x = false -> feq x x = true.
Proof.
  intros H; unfold feq, SFeqb.
  destruct x as [s | s | | s m e]; try discriminate H; simpl;
    try destruct s; try reflexivity;
    rewrite Z.compare_refl;
    change (Pos.compare_cont Eq m m) with (Pos.compare m m);
    rewrite Pos.compare_refl; reflexivity.
Qed.

(** [t <= n] excludes [t > n]. *)
Lemma fle_int_not_fgt_int t n : fle_int t n = true -> fgt_int t n = false.
Proof.
  unfold fle_int, fgt_int.
  destruct (float_compare_int t n) as [[ | | ] | ]; auto; discriminate.
Qed.

(** For a float that is not NaN, [not (t > n)] is [t <= n]. *)
Lemma not_fgt_int_fle_int t n :
  is_nan t = false -> fgt_int t n = false -> fle_int t n = true.
Proof.
  unfold fle_int, fgt_int; intros Ht.
  destruct (float_compare_int t n) as [[ | | ] | ] eqn:E; auto.
  destruct t; discriminate.
Qed.

End FloatFacts.

(** * Facts about the built-ins *)

Section BuiltinFacts.

Lemma insort_length x l : length (insort x l) = S (length l).
Proof.
  induction l as [ | y r IH]; simpl; auto.
  destruct (flt x y); simpl; auto.
Qed.

Lemma insort_perm x l : Permutation (x :: l) (insort x l).
Proof.
  induction l as [ | y r IH]; simpl; auto.
  destruct (flt x y); auto.
  rewrite perm_swap. apply perm_skip, IH.
Qed.

Lemma insort_In x l : In x (insort x l).
Proof.
  apply Permutation_in with (l := x :: l);
    [apply insort_perm | left; reflexivity].
Qed.

Lemma insort_no_nan x l :
  is_nan x = false -> no_nan l = true -> no_nan (insort x l) = true.
Proof.
  intros Hx; induction l as [ | y r IH]; simpl; intros H.
  - rewrite Hx; reflexivity.
  - apply andb_true_iff in H as [Hy Hr].
    destruct (flt x y); simpl; rewrite ?Hx, ?Hy; simpl; auto.
Qed.

Lemma ascending_cons x l :
  ascending (x :: l) = true ->
  ascending l = true /\ forall y, In y l -> fle x y = true.
Proof.
  revert x; induction l as [ | y r IH]; intros x H.
  - split; [reflexivity | intros y []].
  - simpl in H. apply andb_true_iff in H as [Hxy Hr].
    split; [exact Hr | ].
    intros z [<- | Hz]; [exact Hxy | ].
    apply fle_trans with (y := y); [exact Hxy | ].
    apply (proj2 (IH y Hr)); exact Hz.
Qed.

Lemma insort_ascending x l :
  is_nan x = false -> no_nan l = true -> ascending l = true ->
  ascending (insort x l) = true.
Proof.
  intros Hx; induction l as [ | y r IH]; intros Hn Ha.
  - reflexivity.
  - simpl in Hn. apply andb_true_iff in Hn as [Hy Hr].
    apply negb_true_iff in Hy.
    cbn [insort]. destruct (flt x y) eqn:E.
    + change (fle x y && ascending (y :: r) = true).
      rewrite (flt_true_fle _ _ E), Ha; reflexivity.
    + assert (Hyx : fle y x = true) by (apply flt_false_fle; auto).
      assert (Har : ascending r = true) by (apply (ascending_cons y r Ha)).
      specialize (IH Hr Har).
      destruct r as [ | z r'].
      * simpl. rewrite Hyx; reflexivity.
      * cbn [insort] in IH |- *. destruct (flt x z).
        -- change (fle y x && ascending (x :: z :: r') = true).
           rewrite Hyx, IH; reflexivity.
        -- change (fle y z && ascending (z :: insort x r') = true).
           simpl in Ha. apply andb_true_iff in Ha as [Hyz _].
           rewrite Hyz, IH; reflexivity.
Qed.

Lemma py_sort_acc_perm l acc :
  Permutation (fold_left (fun a x => insort x a) l acc) (l ++ acc).
Proof.
  revert acc; induction l as [ | x r IH]; intros acc; simpl; auto.
  rewrite IH, <- insort_perm. symmetry; apply Permutation_middle.
Qed.

(** [py_sort] rearranges the list. *)
Lemma py_sort_perm l : Permutation (py_sort l) l.
Proof.
  unfold py_sort. rewrite py_sort_acc_perm, app_nil_r; reflexivity.
Qed.

Lemma py_sort_length l : length (py_sort l) = length l.
Proof. apply Permutation_length, py_sort_perm. Qed.

Lemma py_sort_acc_ascending l acc :
  no_nan l = true -> no_nan acc = true -> ascending acc = true ->
  ascending (fold_left (fun a x => insort x a) l acc) = true.
Proof.
  revert acc; induction l as [ | x r IH]; intros acc Hl Hn Ha; simpl; auto.
  simpl in Hl. apply andb_true_iff in Hl as [Hx Hr].
  apply negb_true_iff in Hx.
  apply IH; auto using insort_no_nan, insort_ascending.
Qed.

(** Without NaN, the result of [py_sort] is in ascending order. *)
Lemma py_sort_ascending l : no_nan l = true -> ascending (py_sort l) = true.
Proof. intros H; apply py_sort_acc_ascending; auto. Qed.

Lemma py_index_in_range {A : Type} (l : list A) (i : Z) (d : A) :
  0 <= i < Z.of_nat (length l) ->
  py_index l i = Returns (nth (Z.to_nat i) l d).
Proof.
  intros H; unfold py_index.
  destruct (i <? 0) eqn:E; [apply Z.ltb_lt in E; lia | ].
  replace ((0 <=? i) && (i <? Z.of_nat (length l))) with true
    by (symmetry; apply andb_true_iff; split;
        [apply Z.leb_le | apply Z.ltb_lt]; lia).
  destruct (nth_error l (Z.to_nat i)) as [x | ] eqn:N.
  - rewrite (nth_error_nth _ _ d N); reflexivity.
  - apply nth_error_None in N; lia.
Qed.

Lemma py_index_nil {A : Type} (i : Z) : py_index (@nil A) i = Raises IndexError.
Proof.
  unfold py_index; simpl.
  destruct (i <? 0) eqn:E.
  - replace (0 <=? i + 0) with false; [reflexivity | ].
    symmetry; apply Z.leb_gt; apply Z.ltb_lt in E; lia.
  - rewrite andb_comm. replace (i <? 0) with false; reflexivity.
Qed.

End BuiltinFacts.

(** * Facts about the simulation *)

Section SimulationFacts.

Context {R : RandomSource}.

Lemma pool_ok_bounded b : pool_ok b = true -> bounded b.
Proof.
  unfold pool_ok, bounded; intros H.
  apply andb_true_iff in H as [H _]. apply andb_true_iff in H as [H _].
  apply orb_true_iff in H as [H | H]; apply Z.leb_le in H; auto.
Qed.

Lemma pool_ok_no_nan b : pool_ok b = true -> no_nan (entries b) = true.
Proof.
  unfold pool_ok; intros H.
  apply andb_true_iff in H as [H _]. apply andb_true_iff in H as [_ H]; auto.
Qed.

Lemma pool_ok_ascending b : pool_ok b = true -> ascending (entries b) = true.
Proof. unfold pool_ok; intros H. apply andb_true_iff in H as [_ H]; auto. Qed.

Lemma pq_full_true b :
  pq_full b = true <-> 0 < maxsize b /\ maxsize b <= qsize b.
Proof.
  unfold pq_full. rewrite andb_true_iff, Z.ltb_lt, Z.leb_le; tauto.
Qed.

Lemma pq_full_false b :
  pq_full b = false <-> maxsize b <= 0 \/ qsize b < maxsize b.
Proof.
  unfold pq_full. rewrite andb_false_iff, Z.ltb_ge, Z.leb_gt; tauto.
Qed.

Lemma next_voter_eq self time pst std (g : rng) :
  next_voter self time pst std g =
    let r := gen_voter_parameters (arrival_rate self)
               (voting_duration_rate self) pst std g in
    (new_Voter (fadd time (fst (fst r))) (snd (fst r)), snd r).
Proof.
  unfold next_voter.
  destruct (gen_voter_parameters _ _ _ _ g) as [[gap vd] g']; reflexivity.
Qed.

(** What one admission does to a pool within its capacity. *)
Lemma simulate_single_vote_spec self voter booths :
  bounded booths ->
  exists start rest,
    simulate_single_vote self voter booths =
      Returns ({| arrival_time := arrival_time voter;
                  voting_duration := voting_duration voter;
                  start_time := Some start;
                  departure_time :=
                    Some (fadd start (voting_duration voter)) |},
               {| maxsize := maxsize booths;
                  entries :=
                    insort (fadd start (voting_duration voter)) rest |})
    /\ ((full booths = false /\ start = arrival_time voter
         /\ rest = entries booths)
        \/ (full booths = true /\
            exists E, entries booths = E :: rest /\
              start = if flt E (arrival_time voter)
                      then arrival_time voter else E)).
Proof.
  intros Hb. unfold simulate_single_vote, full.
  destruct (pq_full booths) eqn:F; cbn [negb].
  - pose proof (proj1 (pq_full_true booths) F) as [Hpos Hge].
    assert (Hq : qsize booths = maxsize booths)
      by (destruct Hb; lia).
    destruct booths as [cap [ | E rest]]; unfold qsize in *; simpl in *;
      [lia | ].
    set (start := if flt E (arrival_time voter)
                  then arrival_time voter else E).
    exists start, rest. split.
    + unfold depart, pq_get; cbn [entries maxsize bind].
      assert (Hnf : pq_full {| maxsize := cap; entries := rest |} = false)
        by (apply pq_full_false; unfold qsize; simpl; lia).
      subst start. destruct (flt E (arrival_time voter));
        cbn [bind]; unfold enter; rewrite Hnf;
        cbn [departure_time]; unfold pq_put;
        fold (pq_full {| maxsize := cap; entries := rest |});
        rewrite Hnf; reflexivity.
    + right. split; [reflexivity | ]. exists E; auto.
  - exists (arrival_time voter), (entries booths). split.
    + cbn [bind]. unfold enter; rewrite F.
      cbn [departure_time]; unfold pq_put; fold (pq_full booths);
        rewrite F; reflexivity.
    + left; auto.
Qed.

(** An admission keeps the pool within its capacity. *)
Lemma simulate_single_vote_bounded self voter booths v' b' :
  bounded booths ->
  simulate_single_vote self voter booths = Returns (v', b') ->
  maxsize b' = maxsize booths /\ bounded b' /\
  (0 < maxsize booths -> qsize b' <= maxsize booths).
Proof.
  intros Hb H.
  destruct (simulate_single_vote_spec self voter booths Hb)
    as (start & rest & E & Hcase).
  rewrite E in H; injection H as <- <-. cbn [maxsize].
  assert (Hq : 0 < maxsize booths ->
               Z.of_nat (S (length rest)) <= maxsize booths).
  { intros Hpos. destruct Hcase as [(F & _ & ->) | (F & E' & HE & _)].
    - apply pq_full_false in F. unfold qsize in F. lia.
    - unfold bounded, qsize in Hb. rewrite HE in Hb. simpl length in Hb. lia. }
  split; [reflexivity | ].
  unfold bounded, qsize; cbn [maxsize entries]; rewrite insort_length.
  split; [ | exact Hq].
  destruct (Z_le_gt_dec (maxsize booths) 0); [left; lia | right; apply Hq; lia].
Qed.

(** A rule for the loop of [simulate]: [P n] holds of the loop variables
    when [n] iterations remain, [Q] when the loop is left. *)
Lemma simulate_loop_rule self pst std
    (P : nat -> sim_state -> Prop) (Q : sim_state -> Prop) :
  (forall st, P O st -> Q st) ->
  (forall n st, P (S n) st ->
     let vg := next_voter self (st_time st) pst std (st_rng st) in
     let time := arrival_time (fst vg) in
     if fgt_int time (hours_open self * 60) then
       Q {| st_time := time; st_rng := snd vg;
            st_booths := st_booths st; st_voters := st_voters st |}
     else
       exists v' b',
         simulate_single_vote self (fst vg) (st_booths st) = Returns (v', b')
         /\ P n {| st_time := time; st_rng := snd vg;
                   st_booths := b'; st_voters := st_voters st ++ [v'] |}) ->
  forall n st, P n st ->
    exists st', simulate_loop self pst std n st = Returns st' /\ Q st'.
Proof.
  intros H0 HS n; induction n as [ | n IH]; intros st HP.
  - exists st; split; [reflexivity | auto].
  - specialize (HS n st HP). cbn [simulate_loop].
    destruct (next_voter self (st_time st) pst std (st_rng st))
      as [voter g]; cbn [fst snd] in HS.
    destruct (fgt_int (arrival_time voter) (hours_open self * 60)).
    + eexists; split; [reflexivity | exact HS].
    + destruct HS as (v' & b' & E & HP'). rewrite E; cbn [bind].
      apply IH; exact HP'.
Qed.

(** [until_closed] keeps a prefix, free of late arrivals, that ends just
    before the first late arrival. *)
Lemma until_closed_prefix closing_time l :
  until_closed closing_time l
    = firstn (length (until_closed closing_time l)) l
  /\ Forall (fun v => fgt_int (arrival_time v) closing_time = false)
       (until_closed closing_time l)
  /\ (forall v, nth_error l (length (until_closed closing_time l)) = Some v
        -> fgt_int (arrival_time v) closing_time = true).
Proof.
  induction l as [ | v r (IH1 & IH2 & IH3)].
  - repeat split; auto. intros v Hv; discriminate Hv.
  - cbn [until_closed].
    destruct (fgt_int (arrival_time v) closing_time) eqn:C.
    + repeat split; auto. intros w Hw; injection Hw as <-; exact C.
    + cbn [length firstn nth_error]. repeat split; auto.
      f_equal; exact IH1.
Qed.

Lemma until_closed_nth closing_time l j v :
  nth_error l j = Some v ->
  (forall i w, (i <= j)%nat -> nth_error l i = Some w ->
     fgt_int (arrival_time w) closing_time = false) ->
  nth_error (until_closed closing_time l) j = Some v.
Proof.
  revert j; induction l as [ | u r IH]; intros j Hv Hall.
  - destruct j; discriminate Hv.
  - cbn [until_closed].
    rewrite (Hall O u (Nat.le_0_l j) eq_refl).
    destruct j as [ | j]; [exact Hv | ].
    cbn [nth_error] in *. apply IH; [exact Hv | ].
    intros i w Hi Hw. apply (Hall (S i) w); [lia | exact Hw].
Qed.

Lemma generated_S self pst std n time (g : rng) :
  generated self pst std (S n) time g =
    let vg := next_voter self time pst std g in
    fst vg :: generated self pst std n (arrival_time (fst vg)) (snd vg).
Proof.
  cbn [generated]. destruct (next_voter self time pst std g); reflexivity.
Qed.

Lemma next_voter_as_generated self time pst std (g : rng) :
  as_generated (fst (next_voter self time pst std g)) =
    fst (next_voter self time pst std g).
Proof. rewrite next_voter_eq; reflexivity. Qed.

(** The loop returns; the voters it adds are the generated ones up to
    closing time, each of them admitted. *)
Lemma simulate_loop_structure self pst std n st :
  bounded (st_booths st) -> Forall admitted (st_voters st) ->
  exists st',
    simulate_loop self pst std n st = Returns st'
    /\ bounded (st_booths st')
    /\ Forall admitted (st_voters st')
    /\ map as_generated (st_voters st') =
         map as_generated (st_voters st)
         ++ until_closed (hours_open self * 60)
              (generated self pst std n (st_time st) (st_rng st)).
Proof.
  intros Hb Ha.
  set (L := map as_generated (st_voters st) ++ _).
  apply simulate_loop_rule with
    (P := fun k s =>
            bounded (st_booths s) /\ Forall admitted (st_voters s) /\
            map as_generated (st_voters s)
            ++ until_closed (hours_open self * 60)
                 (generated self pst std k (st_time s) (st_rng s)) = L).
  - intros s (HB & HA & HL). split; [exact HB | ]. split; [exact HA | ].
    rewrite <- HL; cbn [generated until_closed]; rewrite app_nil_r; reflexivity.
  - intros k s (HB & HA & HL). cbv zeta.
    rewrite generated_S in HL; cbv zeta in HL; cbn [until_closed] in HL.
    destruct (fgt_int _ _) eqn:C.
    + cbn [st_voters st_booths]. split; [exact HB | ]. split; [exact HA | ].
      rewrite <- HL, app_nil_r; reflexivity.
    + destruct (simulate_single_vote_spec self
                  (fst (next_voter self (st_time s) pst std (st_rng s)))
                  (st_booths s) HB) as (start & rest & E & _).
      eexists; eexists; split; [exact E | ].
      cbn [st_booths st_voters st_time st_rng].
      split; [ | split].
      * eapply simulate_single_vote_bounded; [exact HB | exact E].
      * apply Forall_app; split; [exact HA | ].
        constructor; [ | constructor]. exists start; split; reflexivity.
      * rewrite map_app, <- app_assoc. cbn [map app].
        rewrite <- HL. do 2 f_equal.
        apply next_voter_as_generated.
  - auto.
Qed.

Lemma sim_init_bounded self seed : bounded (st_booths (sim_init self seed)).
Proof.
  unfold bounded, sim_init, new_VotingBooths, qsize; simpl. lia.
Qed.

(** [simulate] returns; its result is the list of the generated voters
    up to closing time, each of them admitted. *)
Lemma simulate_returns self pst std seed :
  exists voters,
    simulate self pst std seed = Returns voters
    /\ Forall admitted voters
    /\ map as_generated voters =
         until_closed (hours_open self * 60)
           (generated self pst std (Z.to_nat (max_num_voters self))
              fzero (random_seed seed)).
Proof.
  destruct (simulate_loop_structure self pst std
              (Z.to_nat (max_num_voters self)) (sim_init self seed)
              (sim_init_bounded self seed) (Forall_nil _))
    as (st' & E & _ & HA & HG).
  exists (st_voters st'). unfold simulate. rewrite E; cbn [bind].
  repeat split; auto.
Qed.

Lemma no_nan_In l x : no_nan l = true -> In x l -> is_nan x = false.
Proof.
  unfold no_nan; intros H Hx.
  apply negb_true_iff. exact (proj1 (forallb_forall _ l) H x Hx).
Qed.

Lemma no_nan_cons x l :
  no_nan (x :: l) = true <-> is_nan x = false /\ no_nan l = true.
Proof.
  unfold no_nan; cbn [forallb]. rewrite andb_true_iff, negb_true_iff; tauto.
Qed.

(** With finite draws, the loop keeps the pool free of NaN and in
    ascending order, and schedules every voter well. *)
Lemma simulate_loop_finite self pst std n st :
  draws_finite self pst std ->
  pool_ok (st_booths st) = true -> is_nan (st_time st) = false ->
  Forall well_scheduled (st_voters st) ->
  exists st',
    simulate_loop self pst std n st = Returns st'
    /\ pool_ok (st_booths st') = true
    /\ Forall well_scheduled (st_voters st').
Proof.
  intros Hfin Hp Ht Hw.
  apply simulate_loop_rule with
    (P := fun (_ : nat) s =>
            pool_ok (st_booths s) = true /\ is_nan (st_time s) = false /\
            Forall well_scheduled (st_voters s)); [tauto | | auto].
  clear n st Hp Ht Hw.
  intros _ s (Hp & Ht & Hw). cbv zeta.
  rewrite next_voter_eq; cbv zeta; cbn [fst snd new_Voter arrival_time].
  destruct (Hfin (st_rng s)) as [Hgap Hdur].
  set (r := gen_voter_parameters _ _ _ _ (st_rng s)) in *.
  set (arrival := fadd (st_time s) (fst (fst r))).
  assert (Ha : is_nan arrival = false) by (apply fadd_not_nan; auto).
  destruct (fgt_int arrival _); [cbn [st_booths st_voters]; tauto | ].
  pose proof (pool_ok_bounded _ Hp) as Hb.
  pose proof (pool_ok_no_nan _ Hp) as Hn.
  pose proof (pool_ok_ascending _ Hp) as Hs.
  destruct (simulate_single_vote_spec self
              (new_Voter arrival (snd (fst r))) (st_booths s) Hb)
    as (start & rest & E & Hcase).
  cbn [new_Voter arrival_time voting_duration] in E, Hcase.
  eexists; eexists; split; [exact E | ].
  cbn [st_booths st_voters st_time].
  assert (Hstart : is_nan start = false /\ fle arrival start = true
                   /\ no_nan rest = true /\ ascending rest = true).
  { destruct Hcase as [(_ & -> & ->) | (_ & E0 & HE & ->)].
    - auto using fle_refl.
    - rewrite HE in Hn, Hs. apply no_nan_cons in Hn as [HE0 Hrest].
      pose proof (proj1 (ascending_cons _ _ Hs)) as Hasc.
      destruct (flt E0 arrival) eqn:C;
        auto using fle_refl, flt_false_fle. }
  destruct Hstart as (Hs1 & Hs2 & Hs3 & Hs4).
  assert (Hd : is_nan (fadd start (snd (fst r))) = false)
    by (apply fadd_not_nan; auto).
  split; [ | split; [exact Ha | ] ].
  - pose proof (simulate_single_vote_bounded _ _ _ _ _ Hb E) as (_ & Hb' & _).
    unfold pool_ok. cbn [entries].
    rewrite insort_no_nan, insort_ascending by auto.
    rewrite !andb_true_r. apply orb_true_iff.
    destruct Hb' as [Hb' | Hb']; [left | right]; apply Z.leb_le; exact Hb'.
  - apply Forall_app; split; [exact Hw | ].
    constructor; [ | constructor].
    exists start, (fadd start (snd (fst r))).
    cbn [start_time departure_time arrival_time voting_duration].
    repeat split; auto using feq_refl.
Qed.

Lemma sim_init_pool_ok self seed :
  pool_ok (st_booths (sim_init self seed)) = true.
Proof.
  unfold pool_ok, sim_init, new_VotingBooths, qsize; simpl.
  rewrite !andb_true_r. apply orb_true_iff.
  destruct (Z_le_gt_dec (num_booths self) 0);
    [left | right]; apply Z.leb_le; lia.
Qed.

(** With a capacity of at least one booth, the loop never lets the pool
    grow beyond it. *)
Lemma simulate_loop_capacity self pst std n st :
  1 <= maxsize (st_booths st) ->
  qsize (st_booths st) <= maxsize (st_booths st) ->
  exists st',
    simulate_loop self pst std n st = Returns st'
    /\ maxsize (st_booths st') = maxsize (st_booths st)
    /\ qsize (st_booths st') <= maxsize (st_booths st).
Proof.
  intros Hcap Hq.
  apply simulate_loop_rule with
    (P := fun (_ : nat) s =>
            maxsize (st_booths s) = maxsize (st_booths st) /\
            qsize (st_booths s) <= maxsize (st_booths st));
    [tauto | | auto].
  intros _ s (Hm & Hs). cbv zeta.
  destruct (fgt_int _ _); [cbn [st_booths]; tauto | ].
  assert (Hb : bounded (st_booths s)) by (right; lia).
  destruct (simulate_single_vote_spec self
              (fst (next_voter self (st_time s) pst std (st_rng s)))
              (st_booths s) Hb) as (start & rest & E & _).
  eexists; eexists; split; [exact E | ].
  destruct (simulate_single_vote_bounded _ _ _ _ _ Hb E) as (Hm' & _ & Hq').
  cbn [st_booths]. split; [lia | ].
  specialize (Hq' ltac:(lia)). lia.
Qed.

(** While fewer voters remain than booths are free, nobody waits. *)
Lemma simulate_loop_no_wait self pst std n st :
  (n <> O -> qsize (st_booths st) + Z.of_nat n <= maxsize (st_booths st)) ->
  Forall (fun v => start_time v = Some (arrival_time v)) (st_voters st) ->
  exists st',
    simulate_loop self pst std n st = Returns st'
    /\ Forall (fun v => start_time v = Some (arrival_time v)) (st_voters st').
Proof.
  intros Hq Hw.
  apply simulate_loop_rule with
    (P := fun k s =>
            (k <> O ->
             qsize (st_booths s) + Z.of_nat k <= maxsize (st_booths s)) /\
            Forall (fun v => start_time v = Some (arrival_time v))
              (st_voters s));
    [tauto | | auto].
  clear n st Hq Hw.
  intros k s (Hq & Hw). cbv zeta.
  destruct (fgt_int _ _); [cbn [st_voters]; exact Hw | ].
  assert (Hlt : qsize (st_booths s) < maxsize (st_booths s))
    by (specialize (Hq ltac:(discriminate)); lia).
  assert (Hb : bounded (st_booths s)) by (right; lia).
  destruct (simulate_single_vote_spec self
              (fst (next_voter self (st_time s) pst std (st_rng s)))
              (st_booths s) Hb) as (start & rest & E & Hcase).
  eexists; eexists; split; [exact E | ].
  cbn [st_booths st_voters maxsize].
  destruct Hcase as [(_ & -> & ->) | (F & _)].
  - split.
    + intros Hk. unfold qsize in *. cbn [entries].
      rewrite insort_length. specialize (Hq ltac:(discriminate)). lia.
    + apply Forall_app; split; [exact Hw | ].
      constructor; [reflexivity | constructor].
  - apply pq_full_true in F. lia.
Qed.

End SimulationFacts.

(** * Facts about the aggregation and the search *)

Section AggregationFacts.

Context {R : RandomSource}.

Lemma py_range_In n i : In i (py_range n) <-> 0 <= i < n.
Proof.
  unfold py_range. rewrite in_map_iff. split.
  - intros (k & <- & Hk). apply in_seq in Hk. lia.
  - intros H. exists (Z.to_nat i). split; [lia | ].
    apply in_seq. lia.
Qed.

Lemma py_range_length n : length (py_range n) = Z.to_nat n.
Proof. unfold py_range. rewrite length_map, length_seq; reflexivity. Qed.

Lemma py_range_split n k :
  0 <= k < n -> exists post, py_range n = py_range k ++ k :: post.
Proof.
  intros H. unfold py_range.
  replace (Z.to_nat n) with (Z.to_nat k + S (Z.to_nat (n - k - 1)))%nat by lia.
  rewrite seq_app, map_app. cbn [seq map Nat.add].
  rewrite Z2Nat.id by lia. eexists; reflexivity.
Qed.

Lemma admitted_get_wait v : admitted v -> get_wait v = Some (wait_of v).
Proof.
  intros (start & Hs & _). unfold get_wait, wait_of. rewrite Hs; reflexivity.
Qed.

Lemma py_sum_from_admitted voters acc :
  Forall admitted voters ->
  py_sum_from acc (map get_wait voters) =
    Returns (fold_left fadd (map wait_of voters) acc).
Proof.
  intros H; revert acc; induction H as [ | v r Hv Hr IH]; intros acc.
  - reflexivity.
  - cbn [map py_sum_from fold_left].
    rewrite (admitted_get_wait v Hv). apply IH.
Qed.

Lemma simulate_trial_voters precinct pst seed i :
  simulate (Precinct_of precinct) pst (d_straight_ticket_duration precinct)
    (seed + i) = Returns (trial_voters precinct pst seed i)
  /\ Forall admitted (trial_voters precinct pst seed i).
Proof.
  unfold trial_voters.
  destruct (simulate_returns (Precinct_of precinct) pst
              (d_straight_ticket_duration precinct) (seed + i))
    as (voters & E & HA & _).
  rewrite E; cbn [returned]; auto.
Qed.

(** The body of the loop of [find_avg_wait_time] yields the mean wait of
    the trial, and divides by zero when the trial admitted nobody. *)
Lemma trial_avg_wait_spec precinct pst seed i :
  trial_avg_wait precinct pst seed i =
    match trial_voters precinct pst seed i with
    | [] => Raises ZeroDivisionError
    | _ :: _ => Returns (mean_wait (trial_voters precinct pst seed i))
    end.
Proof.
  destruct (simulate_trial_voters precinct pst seed i) as [E HA].
  unfold trial_avg_wait. rewrite E; cbn [bind].
  unfold py_sum. rewrite (py_sum_from_admitted _ _ HA); cbn [bind].
  unfold mean_wait.
  destruct (trial_voters precinct pst seed i); reflexivity.
Qed.

(** The loop of [find_avg_wait_time] either meets a trial without voters
    and divides by zero, or collects the mean wait of every trial. *)
Lemma trials_loop_cases precinct pst seed idx acc :
  (Exists (fun i => trial_voters precinct pst seed i = []) idx /\
   trials_loop precinct pst seed idx acc = Raises ZeroDivisionError)
  \/
  (Forall (fun i => trial_voters precinct pst seed i <> []) idx /\
   trials_loop precinct pst seed idx acc =
     Returns (acc ++ map (fun i => mean_wait (trial_voters precinct pst seed i))
                       idx)).
Proof.
  revert acc; induction idx as [ | i idx IH]; intros acc.
  - right. split; [constructor | ]. cbn. rewrite app_nil_r; reflexivity.
  - cbn [trials_loop]. rewrite trial_avg_wait_spec.
    destruct (trial_voters precinct pst seed i) as [ | v vs] eqn:E.
    + left. split; [left; exact E | reflexivity].
    + cbn [bind].
      destruct (IH (acc ++ [mean_wait (v :: vs)])) as [[HE HR] | [HF HR]].
      * left. split; [right; exact HE | exact HR].
      * right. split.
        -- constructor; [rewrite E; discriminate | exact HF].
        -- rewrite HR, <- app_assoc. cbn [map app]. rewrite E. reflexivity.
Qed.

Lemma sorted_middle_in_range avg_wait_lst ntrials d :
  1 <= ntrials -> Z.of_nat (length avg_wait_lst) = ntrials ->
  sorted_middle avg_wait_lst ntrials =
    Returns (nth (Z.to_nat (ntrials / 2)) (py_sort avg_wait_lst) d).
Proof.
  intros H1 HL. unfold sorted_middle. apply py_index_in_range.
  rewrite py_sort_length, HL.
  split; [apply Z.div_pos; lia | apply Z.div_lt_upper_bound; lia].
Qed.

(** The search loop runs through values that do not exceed the target. *)
Lemma split_loop_none precinct target ntrials seed idx :
  Forall (fun j => exists a, step_wait precinct ntrials seed j = Returns a
                             /\ fgt a target = false) idx ->
  split_loop precinct target ntrials seed idx = Returns None.
Proof.
  induction 1 as [ | j idx (a & Ea & Ha) _ IH]; [reflexivity | ].
  cbn [split_loop]. unfold step_wait, percent_straight_ticket_of in Ea.
  rewrite Ea; cbn [bind]. rewrite Ha. exact IH.
Qed.

(** The search loop stops at the first value that exceeds the target. *)
Lemma split_loop_first precinct target ntrials seed pre k post avg :
  Forall (fun j => exists a, step_wait precinct ntrials seed j = Returns a
                             /\ fgt a target = false) pre ->
  step_wait precinct ntrials seed k = Returns avg ->
  fgt avg target = true ->
  split_loop precinct target ntrials seed (pre ++ k :: post) =
    Returns (Some (percent_split_ticket_of k, avg)).
Proof.
  intros Hpre Ek Hk.
  induction Hpre as [ | j idx (a & Ea & Ha) _ IH]; cbn [app split_loop].
  - unfold step_wait, percent_straight_ticket_of in Ek.
    rewrite Ek; cbn [bind]. rewrite Hk. reflexivity.
  - unfold step_wait, percent_straight_ticket_of in Ea.
    rewrite Ea; cbn [bind]. rewrite Ha. exact IH.
Qed.

End AggregationFacts.

(** * Properties of the simulation *)

Section SimulationProperties.

Context {R : RandomSource}.

(** C1: at every admission during a trial, that is for the pool reached
    after any number [k] of iterations of the loop of [simulate], the
    admission returns; when the pool is not full the start time is the
    arrival time; otherwise the entry [E] that [depart] removes (the
    earliest one, when the draws are finite) decides: the start time is
    the arrival time when [E < arrival_time], else [E]; in every case the
    departure time is the start time plus the voting duration, and it is
    inserted into the pool. *)
Theorem admission_rule self pst std seed k st voter :
  simulate_loop self pst std k (sim_init self seed) = Returns st ->
  exists start booths1 booths2,
    simulate_single_vote self voter (st_booths st) =
      Returns ({| arrival_time := arrival_time voter;
                  voting_duration := voting_duration voter;
                  start_time := Some start;
                  departure_time :=
                    Some (fadd start (voting_duration voter)) |},
               booths2)
    /\ (full (st_booths st) = false ->
        start = arrival_time voter /\ booths1 = st_booths st)
    /\ (full (st_booths st) = true ->
        exists E,
          depart (st_booths st) = Returns (E, booths1)
          /\ entries (st_booths st) = E :: entries booths1
          /\ (draws_finite self pst std ->
              forall x, In x (entries (st_booths st)) -> fle E x = true)
          /\ start = if flt E (arrival_time voter)
                     then arrival_time voter else E)
    /\ entries booths2 =
         insort (fadd start (voting_duration voter)) (entries booths1)
    /\ maxsize booths2 = maxsize (st_booths st)
    /\ In (fadd start (voting_duration voter)) (entries booths2).
Proof.
  intros Hst.
  destruct (simulate_loop_structure self pst std k (sim_init self seed)
              (sim_init_bounded self seed) (Forall_nil _))
    as (st' & E' & Hb & _).
  rewrite Hst in E'; injection E' as <-.
  destruct (simulate_single_vote_spec self voter (st_booths st) Hb)
    as (start & rest & E & Hcase).
  exists start, {| maxsize := maxsize (st_booths st); entries := rest |}.
  eexists; split; [exact E | ]. cbn [entries maxsize].
  split; [ | split; [ | auto using insort_In] ].
  - intros F. destruct Hcase as [(_ & Hs & ->) | (F' & _)]; [ | congruence].
    split; [exact Hs | ]. destruct (st_booths st); reflexivity.
  - intros F. destruct Hcase as [(F' & _) | (_ & E0 & HE & Hs)];
      [congruence | ].
    exists E0. split; [ | split; [exact HE | split; [ | exact Hs] ] ].
    + unfold depart, pq_get. rewrite HE; reflexivity.
    + intros Hfin x Hx.
      destruct (simulate_loop_finite self pst std k (sim_init self seed)
                  Hfin (sim_init_pool_ok self seed) eq_refl (Forall_nil _))
        as (st' & E' & Hp & _).
      rewrite Hst in E'; injection E' as <-.
      pose proof (pool_ok_no_nan _ Hp) as Hn.
      pose proof (pool_ok_ascending _ Hp) as Ha.
      rewrite HE in Hn, Ha, Hx.
      destruct Hx as [<- | Hx].
      * apply fle_refl. apply (no_nan_cons _ _) in Hn; tauto.
      * apply (ascending_cons _ _ Ha); exact Hx.
Qed.

(** C2: [simulate] returns, for every precinct and seed; its result is
    the list of the voters [next_voter] generates (at most
    [max_num_voters]), in generation order, cut at the first one whose
    arrival time is strictly greater than [hours_open * 60].  With [gen]
    the generated voters and [j] the length of the result: the result is
    the first [j] voters of [gen], none of them arrives after closing
    time, and each of them has been admitted; the next generated voter,
    if any, arrives after closing time and is not in the result; and a
    generated voter is in the result, at its rank, whenever it and all
    those before it arrive at or before closing time. *)
Theorem simulate_until_closing self pst std seed :
  let closing_time := hours_open self * 60 in
  let gen := generated self pst std (Z.to_nat (max_num_voters self))
               fzero (random_seed seed) in
  exists voters,
    simulate self pst std seed = Returns voters
    /\ map as_generated voters = until_closed closing_time gen
    /\ map as_generated voters = firstn (length voters) gen
    /\ Forall (fun v => fgt_int (arrival_time v) closing_time = false) voters
    /\ Forall admitted voters
    /\ (forall v, nth_error gen (length voters) = Some v ->
          fgt_int (arrival_time v) closing_time = true)
    /\ (forall j v,
          nth_error gen j = Some v ->
          (forall i w, (i <= j)%nat -> nth_error gen i = Some w ->
             fle_int (arrival_time w) closing_time = true) ->
          nth_error (map as_generated voters) j = Some v).
Proof.
  intros closing_time gen.
  destruct (simulate_returns self pst std seed) as (voters & E & HA & HG).
  fold closing_time gen in HG.
  destruct (until_closed_prefix closing_time gen) as (H1 & H2 & H3).
  assert (HL : length voters = length (until_closed closing_time gen))
    by (rewrite <- HG, length_map; reflexivity).
  exists voters. rewrite HL, HG.
  split; [exact E | ]. split; [reflexivity | ]. split; [exact H1 | ].
  split; [ | split; [exact HA | split; [exact H3 | ] ] ].
  - apply Forall_forall; intros v Hv.
    assert (Hin : In (as_generated v) (until_closed closing_time gen))
      by (rewrite <- HG; apply in_map; exact Hv).
    exact (proj1 (Forall_forall _ _) H2 _ Hin).
  - intros j v Hv Hle. apply until_closed_nth; [exact Hv | ].
    intros i w Hi Hw. apply fle_int_not_fgt_int. exact (Hle i w Hi Hw).
Qed.

(** C3: with finite draws, [simulate] returns and every voter of its
    result has [start_time >= arrival_time] and
    [departure_time == start_time + voting_duration].  The two scheduling
    fields are unset together on the voter [next_voter] creates and set
    together on the voter an admission hands back, hence on every voter
    of the result. *)
Theorem voters_well_scheduled self pst std seed :
  draws_finite self pst std ->
  (exists voters,
     simulate self pst std seed = Returns voters
     /\ Forall well_scheduled voters
     /\ Forall (fun v => both_or_neither v = true) voters)
  /\ (forall time g,
        let v := fst (next_voter self time pst std g) in
        start_time v = None /\ departure_time v = None
        /\ both_or_neither v = true)
  /\ (forall voter booths v' booths',
        simulate_single_vote self voter booths = Returns (v', booths') ->
        start_time v' <> None /\ departure_time v' <> None
        /\ both_or_neither v' = true).
Proof.
  intros Hfin. split; [ | split].
  - destruct (simulate_loop_finite self pst std
                (Z.to_nat (max_num_voters self)) (sim_init self seed)
                Hfin (sim_init_pool_ok self seed) eq_refl (Forall_nil _))
      as (st' & E & _ & Hw).
    exists (st_voters st'). unfold simulate; rewrite E; cbn [bind].
    split; [reflexivity | ]. split; [exact Hw | ].
    eapply Forall_impl; [ | exact Hw].
    intros v (start & dep & Hs & Hd & _). unfold both_or_neither.
    rewrite Hs, Hd; reflexivity.
  - intros time g. rewrite next_voter_eq. cbv zeta. cbn. auto.
  - intros voter booths v' booths' H.
    unfold simulate_single_vote in H.
    destruct (if negb (full booths) then _ else _) as [[start b1] | e | ];
      cbn [bind] in H; try discriminate H.
    destruct (enter b1 _) as [b2 | e | ]; cbn [bind] in H;
      try discriminate H.
    injection H as <- <-. cbn. repeat split; discriminate.
Qed.

(** C7: when there are at least as many booths as voters to consider and
    every gap drawn is strictly positive, [simulate] returns and every
    voter of its result starts at its arrival time. *)
Theorem enough_booths_no_wait self pst std seed :
  max_num_voters self <= num_booths self ->
  gaps_positive self pst std ->
  exists voters,
    simulate self pst std seed = Returns voters
    /\ Forall (fun v => start_time v = Some (arrival_time v)) voters.
Proof.
  intros Hn _.
  destruct (simulate_loop_no_wait self pst std
              (Z.to_nat (max_num_voters self)) (sim_init self seed))
    as (st' & E & Hw).
  - unfold sim_init, new_VotingBooths, qsize; cbn. lia.
  - constructor.
  - exists (st_voters st'). unfold simulate; rewrite E; cbn [bind]. auto.
Qed.

(** C8, amended: with at least one booth, after any number [k] of
    iterations of the loop of [simulate] the pool holds at most
    [num_booths] entries, and so does the pool left by the eviction that
    starts an admission on a full pool. *)
Theorem pool_within_capacity self pst std seed k :
  1 <= num_booths self ->
  exists st,
    simulate_loop self pst std k (sim_init self seed) = Returns st
    /\ maxsize (st_booths st) = num_booths self
    /\ qsize (st_booths st) <= num_booths self
    /\ (forall E booths0,
          depart (st_booths st) = Returns (E, booths0) ->
          qsize booths0 < num_booths self).
Proof.
  intros Hn.
  destruct (simulate_loop_capacity self pst std k (sim_init self seed))
    as (st' & E & Hm & Hq).
  - exact Hn.
  - unfold sim_init, new_VotingBooths, qsize; cbn. lia.
  - cbn [sim_init st_booths new_VotingBooths maxsize] in Hm, Hq.
    exists st'. repeat split; auto.
    intros E0 b0 Hd. unfold depart, pq_get in Hd.
    unfold qsize in Hq.
    destruct (entries (st_booths st')) as [ | x r]; [discriminate Hd | ].
    injection Hd as _ <-. unfold qsize; cbn [entries length] in *. lia.
Qed.

(** C10, amended: [enter] on a full pool never hands control back to the
    caller, whatever the voter: it raises nothing and returns no pool. *)
Theorem enter_full_blocks (self : VotingBooths) (voter : Voter) :
  full self = true -> enter self voter = Blocks.
Proof. unfold full, enter. intros ->. reflexivity. Qed.

End SimulationProperties.

(** * Properties of the aggregation and the search *)

Section AggregationProperties.

Context {R : RandomSource}.

(** C5: for [ntrials >= 1], the loop of [find_avg_wait_time] runs through
    the [ntrials] values [i] of [range(ntrials)]; trial [i] is simulated
    with seed [initial_seed + i], and the average it records is the
    arithmetic mean of [start_time - arrival_time] over the voters of that
    trial: their sum divided by their number (which must not be zero for
    the mean to exist).  When every trial admits a voter, the list recorded
    has [ntrials] entries, the one at rank [i] being the mean of trial [i],
    and it is the list [find_avg_wait_time] sorts. *)
Theorem trial_seeds_and_means precinct pst ntrials initial_seed :
  1 <= ntrials ->
  Z.of_nat (length (py_range ntrials)) = ntrials
  /\ (forall i, 0 <= i < ntrials ->
        let voters := trial_voters precinct pst initial_seed i in
        nth_error (py_range ntrials) (Z.to_nat i) = Some i
        /\ simulate (Precinct_of precinct) pst
             (d_straight_ticket_duration precinct) (initial_seed + i)
             = Returns voters
        /\ Forall admitted voters
        /\ (voters <> [] ->
            trial_avg_wait precinct pst initial_seed i
              = Returns (mean_wait voters)
            /\ mean_wait voters =
                 fdiv (fold_left fadd (map wait_of voters) fzero)
                      (float_of_int (Z.of_nat (length voters)))))
  /\ ((forall i, 0 <= i < ntrials ->
         trial_voters precinct pst initial_seed i <> []) ->
      exists avg_wait_lst,
        trials_loop precinct pst initial_seed (py_range ntrials) []
          = Returns avg_wait_lst
        /\ Z.of_nat (length avg_wait_lst) = ntrials
        /\ (forall i, 0 <= i < ntrials ->
              nth_error avg_wait_lst (Z.to_nat i)
                = Some (mean_wait (trial_voters precinct pst initial_seed i)))
        /\ find_avg_wait_time precinct pst ntrials initial_seed
             = sorted_middle avg_wait_lst ntrials).
Proof.
  intros Hn.
  assert (Hnth : forall i, 0 <= i < ntrials ->
                   nth_error (py_range ntrials) (Z.to_nat i) = Some i).
  { intros i Hi. unfold py_range. rewrite nth_error_map.
    rewrite nth_error_nth' with (d := O) by (rewrite length_seq; lia).
    rewrite seq_nth by lia. cbn [option_map Nat.add].
    rewrite Z2Nat.id by lia. reflexivity. }
  split; [rewrite py_range_length; lia | ]. split.
  - intros i Hi voters.
    destruct (simulate_trial_voters precinct pst initial_seed i) as [E HA].
    split; [exact (Hnth i Hi) | ]. split; [exact E | ]. split; [exact HA | ].
    intros Hne. split; [ | reflexivity].
    rewrite trial_avg_wait_spec. fold voters.
    destruct voters; [destruct Hne | ]; reflexivity.
  - intros Hne.
    destruct (trials_loop_cases precinct pst initial_seed (py_range ntrials) [])
      as [[HE _] | [_ HR]].
    + apply Exists_exists in HE as (i & Hi & Hempty).
      apply py_range_In in Hi. destruct (Hne i Hi Hempty).
    + cbn [app] in HR. eexists; split; [exact HR | ].
      split; [rewrite length_map, py_range_length; lia | ].
      split.
      * intros i Hi. rewrite nth_error_map, (Hnth i Hi). reflexivity.
      * unfold find_avg_wait_time. rewrite HR; reflexivity.
Qed.

(** C9: [find_avg_wait_time] fails with the division by zero of the mean
    of an empty trial exactly when some trial [i], [0 <= i < ntrials],
    admits no voter; for [ntrials >= 1] it returns a value exactly when
    no trial is empty, so that it fails if and only if one is. *)
Theorem aggregator_fails_iff_empty_trial precinct pst ntrials initial_seed :
  let empty_trial i :=
    simulate (Precinct_of precinct) pst (d_straight_ticket_duration precinct)
      (initial_seed + i) = Returns [] in
  (find_avg_wait_time precinct pst ntrials initial_seed
     = Raises ZeroDivisionError
   <-> exists i, 0 <= i < ntrials /\ empty_trial i)
  /\ (1 <= ntrials ->
      ((exists x, find_avg_wait_time precinct pst ntrials initial_seed
                  = Returns x)
       <-> ~ exists i, 0 <= i < ntrials /\ empty_trial i)).
Proof.
  intros empty_trial.
  assert (Hempty : forall i,
            empty_trial i <-> trial_voters precinct pst initial_seed i = []).
  { intros i. unfold empty_trial.
    destruct (simulate_trial_voters precinct pst initial_seed i) as [E _].
    rewrite E. split; [intros H; injection H; auto | intros ->; reflexivity]. }
  unfold find_avg_wait_time.
  destruct (trials_loop_cases precinct pst initial_seed (py_range ntrials) [])
    as [[HE HR] | [HF HR]]; rewrite HR; cbn [bind app].
  - apply Exists_exists in HE as (i & Hi & Hi').
    apply py_range_In in Hi. apply Hempty in Hi'.
    split; [split; [intros _; exists i; auto | reflexivity] | ].
    intros _. split; [intros (x & Hx); discriminate Hx | ].
    intros H; destruct H; exists i; auto.
  - assert (Hnone : ~ exists i, 0 <= i < ntrials /\ empty_trial i).
    { intros (i & Hi & Hi'). apply Hempty in Hi'.
      apply py_range_In in Hi.
      exact (proj1 (Forall_forall _ _) HF i Hi Hi'). }
    split.
    + split; [ | intros H; destruct (Hnone H)].
      unfold sorted_middle, py_index.
      destruct (_ && _); [destruct (nth_error _ _) | ]; discriminate.
    + intros Hn. split; [intros _; exact Hnone | intros _].
      rewrite (sorted_middle_in_range _ ntrials fzero Hn)
        by (rewrite length_map, py_range_length; lia).
      eexists; reflexivity.
Qed.

(** C6: [find_percent_split_ticket] tries the 11 split-ticket percentages
    [i / 10], [i = 0, ..., 10], in increasing order, calling
    [find_avg_wait_time] with the straight-ticket percentage
    [1 - i / 10].  It returns the pair made of the first percentage whose
    median average wait is strictly greater than the target and of that
    wait; when no percentage of the sweep has a wait strictly greater
    than the target it returns [(1, None)]. *)
Theorem split_ticket_search precinct target ntrials seed :
  (forall k avg,
     0 <= k <= 10 ->
     (forall j, 0 <= j < k ->
        exists a, step_wait precinct ntrials seed j = Returns a
                  /\ fgt a target = false) ->
     step_wait precinct ntrials seed k = Returns avg ->
     fgt avg target = true ->
     find_percent_split_ticket precinct target ntrials seed
       = Returns (Float (percent_split_ticket_of k), Some avg))
  /\ ((forall j, 0 <= j <= 10 ->
         exists a, step_wait precinct ntrials seed j = Returns a
                   /\ fgt a target = false) ->
      find_percent_split_ticket precinct target ntrials seed
        = Returns (Int 1, None))
  /\ (forall i,
        step_wait precinct ntrials seed i
          = find_avg_wait_time precinct
              (fsub (float_of_int 1) (percent_split_ticket_of i))
              ntrials seed)
  /\ map percent_split_ticket_of (py_range 11) =
       [ S754_zero false;
         S754_finite false 7205759403792794 (-56);
         S754_finite false 7205759403792794 (-55);
         S754_finite false 5404319552844595 (-54);
         S754_finite false 7205759403792794 (-54);
         S754_finite false 4503599627370496 (-53);
         S754_finite false 5404319552844595 (-53);
         S754_finite false 6305039478318694 (-53);
         S754_finite false 7205759403792794 (-53);
         S754_finite false 8106479329266893 (-53);
         S754_finite false 4503599627370496 (-52) ].
Proof.
  split; [ | split; [ | split; [reflexivity | vm_compute; reflexivity] ] ].
  - intros k avg Hk Hpre Ek Hgt.
    destruct (py_range_split 11 k ltac:(lia)) as (post & Hsplit).
    unfold find_percent_split_ticket. rewrite Hsplit.
    rewrite (split_loop_first precinct target ntrials seed
               (py_range k) k post avg); auto.
    apply Forall_forall; intros j Hj. apply Hpre, py_range_In, Hj.
  - intros Hall. unfold find_percent_split_ticket.
    rewrite split_loop_none; [reflexivity | ].
    apply Forall_forall; intros j Hj. apply py_range_In in Hj.
    apply Hall; lia.
Qed.

End AggregationProperties.

(** C4: for a list of [ntrials >= 1] averages, the end of
    [find_avg_wait_time] returns the element at index [ntrials // 2] of the
    sorted list, which is a rearrangement of the averages, in ascending
    order when none is a NaN.  For [3.0, 1.0, 2.0] it returns [2.0] and for
    [1.0, 2.0, 3.0, 4.0] it returns [3.0], the upper of the two middle
    elements; the same holds when [find_avg_wait_time] is run on trials
    with these averages. *)
Theorem median_is_sorted_middle :
  (forall avg_wait_lst ntrials d,
     1 <= ntrials -> Z.of_nat (length avg_wait_lst) = ntrials ->
     sorted_middle avg_wait_lst ntrials
       = Returns (nth (Z.to_nat (ntrials / 2)) (py_sort avg_wait_lst) d)
     /\ Permutation (py_sort avg_wait_lst) avg_wait_lst
     /\ (no_nan avg_wait_lst = true ->
         ascending (py_sort avg_wait_lst) = true))
  /\ sorted_middle [float_of_int 3; float_of_int 1; float_of_int 2] 3
       = Returns (float_of_int 2)
  /\ sorted_middle
       [float_of_int 1; float_of_int 2; float_of_int 3; float_of_int 4] 4
       = Returns (float_of_int 3)
  /\ (forall (R : RandomSource) precinct pst ntrials initial_seed,
        find_avg_wait_time precinct pst ntrials initial_seed
          = bind (trials_loop precinct pst initial_seed (py_range ntrials) [])
                 (fun avg_wait_lst => sorted_middle avg_wait_lst ntrials))
  /\ (@trials_loop script one_booth fzero 10 (py_range 3) []
        = Returns [float_of_int 3; float_of_int 1; float_of_int 2]
      /\ @find_avg_wait_time script one_booth fzero 3 10
           = Returns (float_of_int 2))
  /\ (@trials_loop script one_booth fzero 20 (py_range 4) []
        = Returns [float_of_int 1; float_of_int 2; float_of_int 3;
                   float_of_int 4]
      /\ @find_avg_wait_time script one_booth fzero 4 20
           = Returns (float_of_int 3)).
Proof.
  split; [ | repeat split; vm_compute; reflexivity].
  intros avg_wait_lst ntrials d Hn HL.
  split; [apply sorted_middle_in_range; assumption | ].
  split; [apply py_sort_perm | apply py_sort_ascending].
Qed.

(** * The properties on concrete runs *)

(** The script draws finite gaps and durations for [one_booth]. *)
Ltac script_finite :=
  intros [seed k]; split; [reflexivity | ];
  cbn; unfold script_duration;
  repeat (match goal with
          | |- context [if ?s =? ?n then _ else _] => destruct (s =? n)
          end; try reflexivity).

(** C1 on the second voter of the trial of [one_booth] with seed 10: the
    booth is taken until minute 8, so the voter who arrives at minute 2
    starts at minute 8. *)
Lemma admission_rule_witness :
  @simulate_loop script (Precinct_of one_booth) fzero fzero 1
     (sim_init (Precinct_of one_booth) 10) = Returns after_first_voter
  /\ full (st_booths after_first_voter) = true
  /\ exists start booths2,
       simulate_single_vote (Precinct_of one_booth) second_voter
         (st_booths after_first_voter)
         = Returns ({| arrival_time := float_of_int 2;
                       voting_duration := float_of_int 3;
                       start_time := Some start;
                       departure_time := Some (fadd start (float_of_int 3)) |},
                    booths2)
       /\ start = float_of_int 8
       /\ In (fadd start (float_of_int 3)) (entries booths2).
Proof.
  split; [vm_compute; reflexivity | ]. split; [vm_compute; reflexivity | ].
  destruct (@admission_rule script (Precinct_of one_booth) fzero fzero 10
              1%nat after_first_voter second_voter)
    as (start & b1 & b2 & E & _ & Hf & _ & _ & HIn).
  - vm_compute; reflexivity.
  - exists start, b2. split; [exact E | ]. split; [ | exact HIn].
    destruct Hf as (E0 & Hd & _ & _ & Hs); [vm_compute; reflexivity | ].
    vm_compute in Hd. injection Hd as <- _. exact Hs.
Defined.

(** C3 on the trial of [one_booth] with seed 10. *)
Lemma voters_well_scheduled_witness :
  exists voters,
    @simulate script (Precinct_of one_booth) fzero fzero 10 = Returns voters
    /\ Forall well_scheduled voters
    /\ Forall (fun v => both_or_neither v = true) voters.
Proof.
  apply (@voters_well_scheduled script (Precinct_of one_booth) fzero fzero 10).
  script_finite.
Defined.

(** C7 on the trial of [many_booths] with seed 10. *)
Lemma enough_booths_no_wait_witness :
  exists voters,
    @simulate script (Precinct_of many_booths) fzero fzero 10 = Returns voters
    /\ Forall (fun v => start_time v = Some (arrival_time v)) voters.
Proof.
  apply (@enough_booths_no_wait script (Precinct_of many_booths) fzero fzero 10).
  - vm_compute; discriminate.
  - intros [seed k]; reflexivity.
Defined.

(** C8: with no booth the queue is unbounded, and after the first admission
    the pool holds one entry, more than [num_booths]. *)
Lemma pool_exceeds_zero_booths :
  exists st,
    @simulate_loop script (Precinct_of no_booth) fzero fzero 1
       (sim_init (Precinct_of no_booth) 10) = Returns st
    /\ num_booths (Precinct_of no_booth) = 0
    /\ qsize (st_booths st) = 1
    /\ ~ qsize (st_booths st) <= num_booths (Precinct_of no_booth).
Proof.
  eexists; split; [vm_compute; reflexivity | ].
  split; [reflexivity | ]. split; [reflexivity | ].
  vm_compute. intros H; apply H; reflexivity.
Defined.

(** C8, amended, on five iterations of the trial of [one_booth]. *)
Lemma pool_within_capacity_witness :
  exists st,
    @simulate_loop script (Precinct_of one_booth) fzero fzero 5
       (sim_init (Precinct_of one_booth) 10) = Returns st
    /\ maxsize (st_booths st) = 1
    /\ qsize (st_booths st) <= 1
    /\ (forall E booths0,
          depart (st_booths st) = Returns (E, booths0) -> qsize booths0 < 1).
Proof.
  apply (@pool_within_capacity script (Precinct_of one_booth) fzero fzero 10
           5%nat).
  vm_compute; discriminate.
Defined.

(** C10: on the full pool of [after_first_voter], [enter] blocks; it raises
    no exception. *)
Lemma enter_full_raises_nothing :
  full (st_booths after_first_voter) = true
  /\ enter (st_booths after_first_voter) second_voter_scheduled = Blocks
  /\ ~ exists e,
         enter (st_booths after_first_voter) second_voter_scheduled = Raises e.
Proof.
  split; [vm_compute; reflexivity | ]. split; [vm_compute; reflexivity | ].
  intros (e & H). vm_compute in H. discriminate H.
Defined.

(** C10, amended, on the same pool. *)
Lemma enter_full_blocks_witness :
  enter (st_booths after_first_voter) second_voter_scheduled = Blocks.
Proof.
  apply (enter_full_blocks (st_booths after_first_voter) second_voter_scheduled).
  vm_compute; reflexivity.
Defined.

(** C4 on the two lists of the specification. *)
Lemma median_is_sorted_middle_witness :
  sorted_middle [float_of_int 3; float_of_int 1; float_of_int 2] 3
    = Returns (float_of_int 2)
  /\ sorted_middle
       [float_of_int 1; float_of_int 2; float_of_int 3; float_of_int 4] 4
       = Returns (float_of_int 3).
Proof.
  split.
  - destruct (proj1 median_is_sorted_middle
                [float_of_int 3; float_of_int 1; float_of_int 2] 3 fzero)
      as (E & _); [lia | reflexivity | ].
    rewrite E. vm_compute; reflexivity.
  - destruct (proj1 median_is_sorted_middle
                [float_of_int 1; float_of_int 2; float_of_int 3;
                 float_of_int 4] 4 fzero)
      as (E & _); [lia | reflexivity | ].
    rewrite E. vm_compute; reflexivity.
Defined.

(** C5 on three trials of [one_booth] from seed 10: the means recorded are
    3, 1 and 2 minutes. *)
Lemma trial_seeds_and_means_witness :
  @trial_avg_wait script one_booth fzero 10 1
    = Returns (mean_wait (@trial_voters script one_booth fzero 10 1))
  /\ exists avg_wait_lst,
       @trials_loop script one_booth fzero 10 (py_range 3) []
         = Returns avg_wait_lst
       /\ Z.of_nat (length avg_wait_lst) = 3
       /\ nth_error avg_wait_lst 1
            = Some (mean_wait (@trial_voters script one_booth fzero 10 1)).
Proof.
  destruct (@trial_seeds_and_means script one_booth fzero 3 10)
    as (_ & Hi & Hall); [lia | ].
  split.
  - apply (Hi 1); [lia | vm_compute; discriminate].
  - destruct Hall as (avgs & E & HL & Hnth & _).
    + intros i Hr.
      assert (Hc : i = 0 \/ i = 1 \/ i = 2) by lia.
      destruct Hc as [-> | [-> | ->]]; vm_compute; discriminate.
    + exists avgs. split; [exact E | ]. split; [exact HL | ].
      apply (Hnth 1). lia.
Defined.

(** C9 on a precinct that closes before the first voter arrives. *)
Lemma aggregator_fails_iff_empty_trial_witness :
  @find_avg_wait_time script never_open fzero 3 10 = Raises ZeroDivisionError.
Proof.
  apply (proj1 (@aggregator_fails_iff_empty_trial script never_open fzero 3 10)).
  exists 0. split; [lia | vm_compute; reflexivity].
Defined.

(** C6 on [one_booth] with three trials from seed 10: the wait first
    exceeds half a minute at 20 percent of split-ticket voters, and it never
    exceeds five minutes. *)
Lemma split_ticket_search_witness :
  @find_percent_split_ticket script one_booth
     (fdiv (float_of_int 1) (float_of_int 2)) 3 10
    = Returns (Float (percent_split_ticket_of 2), Some (float_of_int 2))
  /\ @find_percent_split_ticket script one_booth (float_of_int 5) 3 10
       = Returns (Int 1, None).
Proof.
  split.
  - apply (proj1 (@split_ticket_search script one_booth
                    (fdiv (float_of_int 1) (float_of_int 2)) 3 10) 2).
    + lia.
    + intros j Hj. assert (Hc : j = 0 \/ j = 1) by lia.
      destruct Hc as [-> | ->]; exists fzero; split; vm_compute; reflexivity.
    + vm_compute; reflexivity.
    + vm_compute; reflexivity.
  - apply (proj1 (proj2 (@split_ticket_search script one_booth
                           (float_of_int 5) 3 10))).
    intros j Hj.
    assert (Hc : j = 0 \/ j = 1 \/ j = 2 \/ j = 3 \/ j = 4 \/ j = 5 \/ j = 6
                 \/ j = 7 \/ j = 8 \/ j = 9 \/ j = 10) by lia.
    repeat (destruct Hc as [-> | Hc]); try subst j;
      first [ exists fzero; split; vm_compute; reflexivity
            | exists (float_of_int 2); split; vm_compute; reflexivity ].
Defined.

(** * Further facts about the simulation *)

Section TrialFacts.

Context {R : RandomSource}.

Lemma until_closed_length closing_time l :
  (length (until_closed closing_time l) <= length l)%nat.
Proof.
  induction l as [ | v r IH]; cbn [until_closed length]; [lia | ].
  destruct (fgt_int _ _); cbn [length]; lia.
Qed.

Lemma generated_length self pst std n time (g : rng) :
  length (generated self pst std n time g) = n.
Proof.
  revert time g; induction n as [ | n IH]; intros time g; [reflexivity | ].
  rewrite generated_S; cbv zeta; cbn [length]. rewrite IH; reflexivity.
Qed.

Lemma insort_inv x y l : In y (insort x l) -> y = x \/ In y l.
Proof.
  intros H. apply Permutation_in with (l' := x :: l) in H.
  - destruct H as [-> | H]; auto.
  - symmetry; apply insort_perm.
Qed.

(** What an admission does to a pool within its capacity, with the size
    of the pool it leaves. *)
Lemma simulate_single_vote_size self voter booths :
  bounded booths ->
  exists v' b',
    simulate_single_vote self voter booths = Returns (v', b')
    /\ arrival_time v' = arrival_time voter
    /\ voting_duration v' = voting_duration voter
    /\ maxsize b' = maxsize booths /\ bounded b'
    /\ (full booths = false ->
        start_time v' = Some (arrival_time voter)
        /\ departure_time v' =
             Some (fadd (arrival_time voter) (voting_duration voter))
        /\ qsize b' = qsize booths + 1)
    /\ (full booths = true -> qsize b' = qsize booths)
    /\ (exists d, departure_time v' = Some d /\
          forall e, In e (entries b') -> e = d \/ In e (entries booths)).
Proof.
  intros Hb.
  destruct (simulate_single_vote_spec self voter booths Hb)
    as (start & rest & E & Hcase).
  destruct (simulate_single_vote_bounded _ _ _ _ _ Hb E) as (Hm & Hb' & _).
  eexists; eexists; split; [exact E | ].
  cbn [arrival_time voting_duration start_time departure_time maxsize] in *.
  split; [reflexivity | ]. split; [reflexivity | ]. split; [reflexivity | ].
  split; [exact Hb' | ].
  unfold qsize; cbn [entries]; rewrite insort_length.
  split; [ | split].
  - intros F. destruct Hcase as [(_ & -> & ->) | (F' & _)]; [ | congruence].
    repeat split; lia.
  - intros F. destruct Hcase as [(F' & _) | (_ & E0 & -> & _)];
      [congruence | ]. cbn [length]; lia.
  - eexists; split; [reflexivity | ].
    intros e He. apply insort_inv in He as [-> | He]; [left; reflexivity | ].
    right. destruct Hcase as [(_ & _ & ->) | (_ & E0 & -> & _)];
      [exact He | right; exact He].
Qed.

(** The loop only adds voters at the end of the list. *)
Lemma simulate_loop_extends self pst std n st :
  bounded (st_booths st) ->
  exists st' extra,
    simulate_loop self pst std n st = Returns st'
    /\ bounded (st_booths st')
    /\ st_voters st' = st_voters st ++ extra.
Proof.
  intros Hb.
  destruct (simulate_loop_rule self pst std
              (fun _ s => bounded (st_booths s) /\
                          exists extra, st_voters s = st_voters st ++ extra)
              (fun s => bounded (st_booths s) /\
                        exists extra, st_voters s = st_voters st ++ extra))
    with (n := n) (st := st) as (st' & E & Hb' & extra & Hx).
  - tauto.
  - intros k s (HB & extra & Hx). cbv zeta.
    destruct (fgt_int _ _); [cbn [st_booths st_voters]; eauto | ].
    destruct (simulate_single_vote_size self
                (fst (next_voter self (st_time s) pst std (st_rng s)))
                (st_booths s) HB) as (v' & b' & E & _ & _ & _ & HB' & _).
    exists v', b'. split; [exact E | ]. cbn [st_booths st_voters].
    split; [exact HB' | ]. exists (extra ++ [v']).
    rewrite Hx, app_assoc; reflexivity.
  - split; [exact Hb | exists []; rewrite app_nil_r; reflexivity].
  - eauto.
Qed.

End TrialFacts.

(** * Further properties of the simulation *)

Section TrialProperties.

Context {R : RandomSource}.

(** X1: [simulate] never returns more voters than [max_num_voters], and
    none when that bound is zero or negative. *)
Theorem simulate_at_most_max_num_voters self pst std seed :
  exists voters,
    simulate self pst std seed = Returns voters
    /\ Z.of_nat (length voters) <= Z.max 0 (max_num_voters self)
    /\ (max_num_voters self <= 0 -> voters = []).
Proof.
  destruct (simulate_returns self pst std seed) as (voters & E & _ & HG).
  exists voters. split; [exact E | ].
  assert (HL : (length voters <= Z.to_nat (max_num_voters self))%nat).
  { rewrite <- (length_map as_generated), HG.
    etransitivity; [apply until_closed_length | ].
    rewrite generated_length; reflexivity. }
  split; [lia | ].
  intros Hmax. destruct voters; [reflexivity | cbn [length] in HL; lia].
Qed.

(** X2: the first voter of a trial never waits, whatever the precinct:
    the pool is empty when that voter arrives. *)
Theorem first_voter_never_waits self pst std seed :
  exists voters,
    simulate self pst std seed = Returns voters
    /\ forall v rest, voters = v :: rest ->
         start_time v = Some (arrival_time v)
         /\ departure_time v =
              Some (fadd (arrival_time v) (voting_duration v)).
Proof.
  set (first_ok := fun (v : Voter) =>
         start_time v = Some (arrival_time v)
         /\ departure_time v = Some (fadd (arrival_time v) (voting_duration v))).
  destruct (simulate_loop_rule self pst std
              (fun _ s => bounded (st_booths s) /\
                          match st_voters s with
                          | [] => entries (st_booths s) = []
                          | v :: _ => first_ok v
                          end)
              (fun s => forall v rest, st_voters s = v :: rest -> first_ok v))
    with (n := Z.to_nat (max_num_voters self)) (st := sim_init self seed)
    as (st' & E & H).
  - intros s (_ & Hs) v rest Hv. rewrite Hv in Hs; exact Hs.
  - intros k s (HB & Hs). cbv zeta.
    destruct (fgt_int _ _).
    + cbn [st_voters]. intros v rest Hv. rewrite Hv in Hs; exact Hs.
    + destruct (simulate_single_vote_size self
                  (fst (next_voter self (st_time s) pst std (st_rng s)))
                  (st_booths s) HB)
        as (v' & b' & E & Ha & Hd & _ & HB' & Hnf & _).
      exists v', b'. split; [exact E | ]. cbn [st_booths st_voters].
      split; [exact HB' | ].
      destruct (st_voters s) as [ | v r]; [ | exact Hs].
      cbn [app]. unfold first_ok. rewrite Ha, Hd.
      destruct Hnf as (H1 & H2 & _); [ | split; assumption].
      apply pq_full_false. unfold qsize. rewrite Hs. cbn [length].
      lia.
  - split; [apply sim_init_bounded | reflexivity].
  - exists (st_voters st'). unfold simulate. rewrite E; cbn [bind].
    split; [reflexivity | exact H].
Qed.

(** X3: after any number [k] of iterations of the loop of [simulate], the
    pool holds one departure time per voter admitted so far, up to
    [num_booths] of them when there is at least one booth, and without
    limit when [num_booths] is zero or negative. *)
Theorem pool_size_tracks_voters self pst std seed k :
  exists st,
    simulate_loop self pst std k (sim_init self seed) = Returns st
    /\ qsize (st_booths st) =
         if num_booths self <=? 0 then Z.of_nat (length (st_voters st))
         else Z.min (Z.of_nat (length (st_voters st))) (num_booths self).
Proof.
  set (size_ok := fun s : sim_state =>
         maxsize (st_booths s) = num_booths self /\
         (num_booths self <= 0 ->
          qsize (st_booths s) = Z.of_nat (length (st_voters s))) /\
         (0 < num_booths self ->
          qsize (st_booths s)
            = Z.min (Z.of_nat (length (st_voters s))) (num_booths self))).
  destruct (simulate_loop_rule self pst std (fun _ s => size_ok s) size_ok)
    with (n := k) (st := sim_init self seed) as (st' & E & Hm & Hno & Hcap).
  - tauto.
  - intros _ s (Hm & Hno & Hcap). cbv zeta.
    destruct (fgt_int _ _); [unfold size_ok; tauto | ].
    assert (HB : bounded (st_booths s)) by (unfold bounded; lia).
    destruct (simulate_single_vote_size self
                (fst (next_voter self (st_time s) pst std (st_rng s)))
                (st_booths s) HB)
      as (v' & b' & E & _ & _ & Hm' & _ & Hnf & Hf & _).
    exists v', b'. split; [exact E | ].
    unfold size_ok; cbn [st_booths st_voters].
    rewrite length_app; cbn [length].
    destruct (full (st_booths s)) eqn:F.
    + specialize (Hf eq_refl). apply pq_full_true in F. lia.
    + destruct (Hnf eq_refl) as (_ & _ & Hq'). apply pq_full_false in F. lia.
  - unfold size_ok, sim_init, new_VotingBooths, qsize; cbn. lia.
  - exists st'. split; [exact E | ].
    destruct (Z.leb_spec (num_booths self) 0); auto.
Qed.

(** X4: with zero or a negative number of booths the queue has no bound:
    the pool is never full, so every voter starts on arrival. *)
Theorem no_booth_no_wait self pst std seed :
  num_booths self <= 0 ->
  exists voters,
    simulate self pst std seed = Returns voters
    /\ Forall (fun v => start_time v = Some (arrival_time v)) voters.
Proof.
  intros Hn.
  destruct (simulate_loop_rule self pst std
              (fun _ s => maxsize (st_booths s) <= 0 /\
                 Forall (fun v => start_time v = Some (arrival_time v))
                   (st_voters s))
              (fun s => Forall (fun v => start_time v = Some (arrival_time v))
                          (st_voters s)))
    with (n := Z.to_nat (max_num_voters self)) (st := sim_init self seed)
    as (st' & E & H).
  - tauto.
  - intros _ s (Hm & Hw). cbv zeta.
    destruct (fgt_int _ _); [exact Hw | ].
    assert (HB : bounded (st_booths s)) by (left; exact Hm).
    destruct (simulate_single_vote_size self
                (fst (next_voter self (st_time s) pst std (st_rng s)))
                (st_booths s) HB)
      as (v' & b' & E & Ha & _ & Hm' & _ & Hnf & _).
    exists v', b'. split; [exact E | ]. cbn [st_booths st_voters].
    split; [lia | ]. apply Forall_app; split; [exact Hw | ].
    constructor; [ | constructor]. rewrite Ha. apply Hnf.
    apply pq_full_false; left; exact Hm.
  - split; [exact Hn | constructor].
  - exists (st_voters st'). unfold simulate. rewrite E; cbn [bind]. auto.
Qed.

(** X5: after any number [k] of iterations of the loop of [simulate],
    every entry of the pool is the departure time of a voter admitted
    earlier in the trial. *)
Theorem pool_holds_departure_times self pst std seed k :
  exists st,
    simulate_loop self pst std k (sim_init self seed) = Returns st
    /\ forall e, In e (entries (st_booths st)) ->
         exists v, In v (st_voters st) /\ departure_time v = Some e.
Proof.
  set (from_voters := fun s : sim_state =>
         forall e, In e (entries (st_booths s)) ->
           exists v, In v (st_voters s) /\ departure_time v = Some e).
  destruct (simulate_loop_rule self pst std
              (fun _ s => bounded (st_booths s) /\ from_voters s) from_voters)
    with (n := k) (st := sim_init self seed) as (st' & E & H).
  - tauto.
  - intros _ s (HB & Hs). cbv zeta.
    destruct (fgt_int _ _); [exact Hs | ].
    destruct (simulate_single_vote_size self
                (fst (next_voter self (st_time s) pst std (st_rng s)))
                (st_booths s) HB)
      as (v' & b' & E & _ & _ & _ & HB' & _ & _ & d & Hd & Hin).
    exists v', b'. split; [exact E | ]. split; [exact HB' | ].
    intros e He. cbn [st_booths st_voters] in *.
    destruct (Hin e He) as [-> | Hold].
    + exists v'. split; [apply in_or_app; right; left; reflexivity | exact Hd].
    + destruct (Hs e Hold) as (v & Hv & Hdv).
      exists v. split; [apply in_or_app; left; exact Hv | exact Hdv].
  - split; [apply sim_init_bounded | intros e []].
  - exists st'. split; [exact E | exact H].
Qed.

End TrialProperties.

(** * Further facts used for single-booth, prefix and closing properties *)

Section ScheduleFacts.

Context {R : RandomSource}.

Lemma consecutive_snoc {A : Type} (rel : A -> A -> Prop) l v w :
  consecutive rel (l ++ [v]) -> rel v w ->
  consecutive rel ((l ++ [v]) ++ [w]).
Proof.
  intros Hl Hvw. induction l as [ | a l IH].
  - cbn. auto.
  - destruct l as [ | b l'].
    + cbn in Hl |- *. tauto.
    + cbn [app consecutive] in Hl, IH |- *.
      destruct Hl as [Hab Hl]. split; [exact Hab | exact (IH Hl)].
Qed.

(** An admission with real numbers: the voter starts no earlier than its
    arrival and, on a full pool, no earlier than the evicted departure
    time; the pool it leaves is again well formed. *)
Lemma simulate_single_vote_finite self voter booths :
  pool_ok booths = true ->
  is_nan (arrival_time voter) = false ->
  is_finite (voting_duration voter) = true ->
  exists start rest,
    simulate_single_vote self voter booths =
      Returns ({| arrival_time := arrival_time voter;
                  voting_duration := voting_duration voter;
                  start_time := Some start;
                  departure_time :=
                    Some (fadd start (voting_duration voter)) |},
               {| maxsize := maxsize booths;
                  entries :=
                    insort (fadd start (voting_duration voter)) rest |})
    /\ pool_ok {| maxsize := maxsize booths;
                  entries :=
                    insort (fadd start (voting_duration voter)) rest |} = true
    /\ is_nan (fadd start (voting_duration voter)) = false
    /\ ((full booths = false /\ rest = entries booths)
        \/ (full booths = true /\
            exists E, entries booths = E :: rest /\ fle E start = true)).
Proof.
  intros Hp Ha Hd.
  pose proof (pool_ok_bounded _ Hp) as Hb.
  pose proof (pool_ok_no_nan _ Hp) as Hn.
  pose proof (pool_ok_ascending _ Hp) as Hs.
  destruct (simulate_single_vote_spec self voter booths Hb)
    as (start & rest & E & Hcase).
  exists start, rest. split; [exact E | ].
  assert (Hstart : is_nan start = false /\ no_nan rest = true
                   /\ ascending rest = true
                   /\ ((full booths = false /\ rest = entries booths)
                       \/ (full booths = true /\
                           exists E0, entries booths = E0 :: rest
                                      /\ fle E0 start = true))).
  { destruct Hcase as [(F & -> & ->) | (F & E0 & HE & ->)].
    - split; [exact Ha | ]. split; [exact Hn | ]. split; [exact Hs | ].
      left; split; [exact F | reflexivity].
    - rewrite HE in Hn, Hs. apply no_nan_cons in Hn as [HE0 Hrest].
      pose proof (proj1 (ascending_cons _ _ Hs)) as Hasc.
      destruct (flt E0 (arrival_time voter)) eqn:C.
      + repeat split; auto. right. split; [exact F | ].
        exists E0. split; [exact HE | apply flt_true_fle; exact C].
      + repeat split; auto. right. split; [exact F | ].
        exists E0. split; [exact HE | apply fle_refl; exact HE0]. }
  destruct Hstart as (Hs1 & Hs2 & Hs3 & Hs4).
  assert (Hdep : is_nan (fadd start (voting_duration voter)) = false)
    by (apply fadd_not_nan; auto).
  split; [ | split; [exact Hdep | exact Hs4] ].
  pose proof (simulate_single_vote_bounded _ _ _ _ _ Hb E) as (_ & Hb' & _).
  unfold pool_ok. cbn [entries maxsize] in *.
  rewrite insort_no_nan, insort_ascending by auto.
  rewrite !andb_true_r. apply orb_true_iff.
  destruct Hb' as [Hb' | Hb']; [left | right]; apply Z.leb_le; exact Hb'.
Qed.

(** The loop does not look at [max_num_voters]. *)
Lemma simulate_loop_max_num_voters self c pst std n st :
  simulate_loop (with_max_num_voters self c) pst std n st =
    simulate_loop self pst std n st.
Proof.
  revert st; induction n as [ | n IH]; intros st; [reflexivity | ].
  cbn [simulate_loop].
  change (next_voter (with_max_num_voters self c) (st_time st) pst std
            (st_rng st))
    with (next_voter self (st_time st) pst std (st_rng st)).
  destruct (next_voter self (st_time st) pst std (st_rng st)) as [voter g].
  change (hours_open (with_max_num_voters self c)) with (hours_open self).
  destruct (fgt_int _ _); [reflexivity | ].
  change (simulate_single_vote (with_max_num_voters self c) voter (st_booths st))
    with (simulate_single_vote self voter (st_booths st)).
  destruct (simulate_single_vote self voter (st_booths st)) as [[v' b'] | e | ];
    cbn [bind]; auto.
Qed.

(** More iterations only add voters at the end of the list. *)
Lemma simulate_loop_more_iterations self pst std n m st :
  bounded (st_booths st) ->
  exists st1 st2 extra,
    simulate_loop self pst std n st = Returns st1
    /\ simulate_loop self pst std (n + m) st = Returns st2
    /\ st_voters st2 = st_voters st1 ++ extra.
Proof.
  revert st; induction n as [ | n IH]; intros st Hb.
  - destruct (simulate_loop_extends self pst std m st Hb)
      as (st2 & extra & E & _ & Hx).
    exists st, st2, extra. auto.
  - cbn [Nat.add simulate_loop].
    destruct (next_voter self (st_time st) pst std (st_rng st)) as [voter g].
    destruct (fgt_int _ _).
    + eexists; eexists; exists []. rewrite app_nil_r. auto.
    + destruct (simulate_single_vote_size self voter (st_booths st) Hb)
        as (v' & b' & E & _ & _ & _ & Hb' & _).
      rewrite E; cbn [bind]. apply IH. exact Hb'.
Qed.

(** A float greater than an int is greater than every smaller int. *)
Lemma fgt_int_mono t n n' : n <= n' -> fgt_int t n' = true -> fgt_int t n = true.
Proof.
  intros Hn. unfold fgt_int, float_compare_int.
  destruct t as [s | s | | s m e]; auto.
  - destruct (Z.compare_spec 0 n'); try discriminate.
    intros _. destruct (Z.compare_spec 0 n); auto; lia.
  - set (v := if s then Z.neg m else Z.pos m).
    destruct (0 <=? e).
    + destruct (Z.compare_spec (v * 2 ^ e) n'); try discriminate.
      intros _. destruct (Z.compare_spec (v * 2 ^ e) n); auto; lia.
    + assert (Hp : 0 <= 2 ^ (- e)) by apply Z.pow_nonneg, Z.le_0_2.
      destruct (Z.compare_spec v (n' * 2 ^ (- e))); try discriminate.
      intros _. destruct (Z.compare_spec v (n * 2 ^ (- e))); auto; nia.
Qed.

(** The loop with other opening hours generates the same voters. *)
Lemma simulate_loop_longer_hours self h pst std n st :
  hours_open self <= h ->
  bounded (st_booths st) ->
  exists st1 st2 extra,
    simulate_loop self pst std n st = Returns st1
    /\ simulate_loop (with_hours_open self h) pst std n st = Returns st2
    /\ st_voters st2 = st_voters st1 ++ extra.
Proof.
  intros Hh. revert st; induction n as [ | n IH]; intros st Hb.
  - exists st, st, []. rewrite app_nil_r. auto.
  - cbn [simulate_loop].
    change (next_voter (with_hours_open self h) (st_time st) pst std
              (st_rng st))
      with (next_voter self (st_time st) pst std (st_rng st)).
    destruct (next_voter self (st_time st) pst std (st_rng st)) as [voter g].
    change (hours_open (with_hours_open self h)) with h.
    change (simulate_single_vote (with_hours_open self h) voter (st_booths st))
      with (simulate_single_vote self voter (st_booths st)).
    destruct (simulate_single_vote_size self voter (st_booths st) Hb)
      as (v' & b' & E & _ & _ & _ & Hb' & _).
    destruct (fgt_int (arrival_time voter) (h * 60)) eqn:C'.
    + rewrite (fgt_int_mono _ (hours_open self * 60) (h * 60)) by (lia || auto).
      eexists; eexists; exists []. rewrite app_nil_r. auto.
    + destruct (fgt_int (arrival_time voter) (hours_open self * 60)) eqn:C.
      * rewrite E; cbn [bind].
        set (st2 := {| st_time := arrival_time voter; st_rng := g;
                       st_booths := b'; st_voters := st_voters st ++ [v'] |}).
        destruct (simulate_loop_extends (with_hours_open self h) pst std n st2 Hb')
          as (st2' & extra & E2 & _ & Hx).
        eexists; exists st2', ([v'] ++ extra).
        split; [reflexivity | ]. split; [exact E2 | ].
        cbn [st_voters]. rewrite Hx. subst st2; cbn [st_voters].
        rewrite <- app_assoc; reflexivity.
      * rewrite E; cbn [bind]. apply IH. exact Hb'.
Qed.

(** A strictly positive float is greater than every int that is not. *)
Lemma positive_fgt_int x n : flt fzero x = true -> n <= 0 -> fgt_int x n = true.
Proof.
  intros Hx Hn. unfold fgt_int, float_compare_int.
  destruct x as [s | s | | s m e]; try discriminate Hx;
    destruct s; try discriminate Hx; auto.
  destruct (Z.leb_spec 0 e) as [He | He].
  - assert (Hp : 0 < 2 ^ e) by (apply Z.pow_pos_nonneg; lia).
    destruct (Z.compare_spec (Z.pos m * 2 ^ e) n); auto; nia.
  - assert (Hp : 0 <= 2 ^ (- e)) by apply Z.pow_nonneg, Z.le_0_2.
    destruct (Z.compare_spec (Z.pos m) (n * 2 ^ (- e))); auto; nia.
Qed.

Lemma fadd_fzero_positive x : flt fzero x = true -> fadd fzero x = x.
Proof.
  destruct x as [s | s | | s m e]; try discriminate; reflexivity.
Qed.

End ScheduleFacts.

(** * Further properties: one booth, larger bounds, closed precincts *)

Section ScheduleProperties.

Context {R : RandomSource}.

(** X6: with a single booth and finite draws, the voters vote one at a
    time: each voter of the result starts at or after the departure time
    of the voter before. *)
Theorem single_booth_one_at_a_time self pst std seed :
  num_booths self = 1 ->
  draws_finite self pst std ->
  exists voters,
    simulate self pst std seed = Returns voters
    /\ consecutive leaves_before voters.
Proof.
  intros Hone Hfin.
  set (inv := fun s : sim_state =>
         pool_ok (st_booths s) = true /\ is_nan (st_time s) = false /\
         maxsize (st_booths s) = 1 /\
         consecutive leaves_before (st_voters s) /\
         ((st_voters s = [] /\ entries (st_booths s) = []) \/
          exists l v d, st_voters s = l ++ [v] /\ departure_time v = Some d
                        /\ entries (st_booths s) = [d])).
  destruct (simulate_loop_rule self pst std (fun _ s => inv s) inv)
    with (n := Z.to_nat (max_num_voters self)) (st := sim_init self seed)
    as (st' & E & _ & _ & _ & Hc & _).
  - tauto.
  - intros _ s (Hp & Ht & Hm & Hc & Hlast). cbv zeta.
    rewrite next_voter_eq; cbv zeta; cbn [fst snd new_Voter arrival_time].
    destruct (Hfin (st_rng s)) as [Hgap Hdur].
    set (r := gen_voter_parameters _ _ _ _ (st_rng s)) in *.
    set (arrival := fadd (st_time s) (fst (fst r))).
    assert (Ha : is_nan arrival = false) by (apply fadd_not_nan; auto).
    destruct (fgt_int arrival _);
      [unfold inv; cbn [st_booths st_voters st_time]; tauto | ].
    destruct (simulate_single_vote_finite self
                (new_Voter arrival (snd (fst r))) (st_booths s) Hp Ha Hdur)
      as (start & rest & E & Hp' & Hdep & Hcase).
    cbn [new_Voter arrival_time voting_duration] in E, Hp', Hdep, Hcase.
    eexists; eexists; split; [exact E | ].
    unfold inv; cbn [st_booths st_voters st_time maxsize entries].
    split; [exact Hp' | ]. split; [exact Ha | ]. split; [exact Hm | ].
    destruct Hcase as [(F & ->) | (F & E0 & HE & Hle)].
    + apply pq_full_false in F. unfold qsize in F.
      destruct Hlast as [(Hv & He) | (l & v & d & _ & _ & He)];
        [ | rewrite He in F; cbn [length] in F; lia].
      rewrite Hv, He. cbn [app insort consecutive].
      split; [exact I | ]. right.
      exists [], {| arrival_time := arrival; voting_duration := snd (fst r);
                    start_time := Some start;
                    departure_time := Some (fadd start (snd (fst r))) |}.
      eexists. cbn [app departure_time]. auto.
    + destruct Hlast as [(_ & He) | (l & v & d & Hv & Hd & He)];
        [rewrite He in HE; discriminate HE | ].
      rewrite He in HE; injection HE as <- <-.
      rewrite Hv in Hc |- *. cbn [insort]. split.
      * apply consecutive_snoc; [exact Hc | ].
        exists d, start. cbn [start_time]. auto.
      * right.
        exists (l ++ [v]),
               {| arrival_time := arrival; voting_duration := snd (fst r);
                  start_time := Some start;
                  departure_time := Some (fadd start (snd (fst r))) |}.
        eexists. cbn [departure_time]. auto.
  - unfold inv. split; [apply sim_init_pool_ok | ]. split; [reflexivity | ].
    split; [exact Hone | ]. split; [exact I | left; split; reflexivity].
  - exists (st_voters st'). unfold simulate. rewrite E; cbn [bind]. auto.
Qed.

(** X7: a larger [max_num_voters] only adds voters at the end of the
    list: the voters returned under the smaller bound are returned
    unchanged, in the same order. *)
Theorem larger_max_num_voters_appends self pst std seed c :
  0 <= c ->
  exists voters extra,
    simulate self pst std seed = Returns voters
    /\ simulate (with_max_num_voters self (max_num_voters self + c))
         pst std seed = Returns (voters ++ extra).
Proof.
  intros Hc. unfold simulate.
  change (sim_init (with_max_num_voters self (max_num_voters self + c)) seed)
    with (sim_init self seed).
  cbn [max_num_voters with_max_num_voters].
  rewrite simulate_loop_max_num_voters.
  replace (Z.to_nat (max_num_voters self + c))
    with (Z.to_nat (max_num_voters self)
          + (Z.to_nat (max_num_voters self + c)
             - Z.to_nat (max_num_voters self)))%nat by lia.
  destruct (simulate_loop_more_iterations self pst std
              (Z.to_nat (max_num_voters self))
              (Z.to_nat (max_num_voters self + c)
               - Z.to_nat (max_num_voters self))
              (sim_init self seed) (sim_init_bounded self seed))
    as (st1 & st2 & extra & E1 & E2 & Hx).
  exists (st_voters st1), extra. rewrite E1, E2; cbn [bind].
  rewrite Hx. auto.
Qed.

(** X8: longer opening hours only add voters at the end of the list: the
    voters returned with the shorter hours are returned unchanged. *)
Theorem longer_hours_append self pst std seed h :
  hours_open self <= h ->
  exists voters extra,
    simulate self pst std seed = Returns voters
    /\ simulate (with_hours_open self h) pst std seed
         = Returns (voters ++ extra).
Proof.
  intros Hh. unfold simulate.
  change (sim_init (with_hours_open self h) seed) with (sim_init self seed).
  cbn [max_num_voters with_hours_open].
  destruct (simulate_loop_longer_hours self h pst std
              (Z.to_nat (max_num_voters self)) (sim_init self seed) Hh
              (sim_init_bounded self seed))
    as (st1 & st2 & extra & E1 & E2 & Hx).
  exists (st_voters st1), extra. rewrite E1, E2; cbn [bind].
  rewrite Hx. auto.
Qed.

(** A trial without voters makes [find_avg_wait_time] divide by zero. *)
Lemma find_avg_wait_time_empty_trial precinct pst ntrials initial_seed i :
  0 <= i < ntrials -> trial_voters precinct pst initial_seed i = [] ->
  find_avg_wait_time precinct pst ntrials initial_seed
    = Raises ZeroDivisionError.
Proof.
  intros Hi Hempty. unfold find_avg_wait_time.
  destruct (trials_loop_cases precinct pst initial_seed (py_range ntrials) [])
    as [[_ HR] | [HF _]].
  - rewrite HR; reflexivity.
  - apply py_range_In in Hi.
    destruct (proj1 (Forall_forall _ _) HF i Hi Hempty).
Qed.

(** X9: a precinct whose opening hours are zero or negative admits nobody
    when the gaps are strictly positive, and [find_avg_wait_time] then
    fails with a division by zero for every [ntrials >= 1]. *)
Theorem closed_precinct_divides_by_zero precinct pst ntrials initial_seed :
  d_hours_open precinct <= 0 ->
  gaps_positive (Precinct_of precinct) pst
    (d_straight_ticket_duration precinct) ->
  (forall seed,
     simulate (Precinct_of precinct) pst
       (d_straight_ticket_duration precinct) seed = Returns [])
  /\ (1 <= ntrials ->
      find_avg_wait_time precinct pst ntrials initial_seed
        = Raises ZeroDivisionError).
Proof.
  intros Hh Hgap.
  assert (Hsim : forall seed,
            simulate (Precinct_of precinct) pst
              (d_straight_ticket_duration precinct) seed = Returns []).
  { intros seed. unfold simulate.
    destruct (Z.to_nat (max_num_voters (Precinct_of precinct))) as [ | n];
      [reflexivity | ].
    cbn [simulate_loop]. rewrite next_voter_eq; cbv zeta.
    cbn [sim_init st_time st_rng st_voters fst snd new_Voter arrival_time].
    rewrite fadd_fzero_positive by apply Hgap.
    rewrite positive_fgt_int;
      [reflexivity | apply Hgap | cbn [hours_open Precinct_of]; lia]. }
  split; [exact Hsim | ].
  intros Hn. apply (find_avg_wait_time_empty_trial _ _ _ _ 0); [lia | ].
  unfold trial_voters. rewrite Hsim. reflexivity.
Qed.

(** X10: a precinct with [num_voters <= 0] makes [find_avg_wait_time] fail
    with a division by zero for every [ntrials >= 1]. *)
Theorem no_voters_divides_by_zero precinct pst ntrials initial_seed :
  d_num_voters precinct <= 0 ->
  1 <= ntrials ->
  find_avg_wait_time precinct pst ntrials initial_seed
    = Raises ZeroDivisionError.
Proof.
  intros Hv Hn. apply (find_avg_wait_time_empty_trial _ _ _ _ 0); [lia | ].
  unfold trial_voters, simulate.
  replace (Z.to_nat (max_num_voters (Precinct_of precinct))) with O
    by (cbn [max_num_voters Precinct_of]; lia).
  reflexivity.
Qed.

End ScheduleProperties.

(** * Further facts about the aggregation and the search *)

Section SearchFacts.

Context {R : RandomSource}.

(** Without trials the list of averages is empty and has no middle. *)
Lemma find_avg_wait_time_no_trials precinct pst ntrials initial_seed :
  ntrials <= 0 ->
  find_avg_wait_time precinct pst ntrials initial_seed = Raises IndexError.
Proof.
  intros Hn. unfold find_avg_wait_time, py_range.
  replace (Z.to_nat ntrials) with O by lia.
  cbn [seq map trials_loop bind]. unfold sorted_middle.
  change (py_sort []) with (@nil float). apply py_index_nil.
Qed.

Lemma Permutation_filter_length {A : Type} (f : A -> bool) l l' :
  Permutation l l' -> length (filter f l) = length (filter f l').
Proof.
  induction 1 as [ | x l l' _ IH | x y l | l l' l'' _ IH1 _ IH2];
    cbn [filter]; auto.
  - destruct (f x); cbn [length]; auto.
  - destruct (f x), (f y); reflexivity.
  - congruence.
Qed.

Lemma ascending_nth_le s d i j :
  ascending s = true -> no_nan s = true ->
  (i <= j < length s)%nat -> fle (nth i s d) (nth j s d) = true.
Proof.
  revert i j; induction s as [ | x r IH]; intros i j Ha Hn Hij;
    [cbn [length] in Hij; lia | ].
  apply no_nan_cons in Hn as [Hx Hr].
  destruct (ascending_cons x r Ha) as [Har Hall].
  cbn [length] in Hij.
  destruct i as [ | i], j as [ | j]; cbn [nth]; try lia.
  - apply fle_refl; exact Hx.
  - apply Hall, nth_In; lia.
  - apply IH; auto; lia.
Qed.

Lemma filter_length_prefix {A : Type} (f : A -> bool) l d n :
  (n <= length l)%nat ->
  (forall i, (i < n)%nat -> f (nth i l d) = true) ->
  (n <= length (filter f l))%nat.
Proof.
  revert n; induction l as [ | x r IH]; intros n Hn Hall;
    [cbn [length] in Hn; lia | ].
  destruct n as [ | n]; [lia | ].
  cbn [filter]. pose proof (Hall O ltac:(lia)) as H0. cbn [nth] in H0.
  rewrite H0. cbn [length] in *.
  apply le_n_S, IH; [lia | ].
  intros i Hi. apply (Hall (S i)). lia.
Qed.

Lemma filter_length_suffix {A : Type} (f : A -> bool) l d k :
  (forall i, (k <= i < length l)%nat -> f (nth i l d) = true) ->
  (length l - k <= length (filter f l))%nat.
Proof.
  revert k; induction l as [ | x r IH]; intros k Hall; [cbn; lia | ].
  destruct k as [ | k].
  - apply (filter_length_prefix f (x :: r) d); [lia | ].
    intros i Hi. apply Hall. lia.
  - cbn [filter length Nat.sub].
    assert (H : (length r - k <= length (filter f r))%nat).
    { apply IH. intros i Hi. apply (Hall (S i)). cbn [length]. lia. }
    destruct (f x); cbn [length]; lia.
Qed.

(** What a run of the search loop over [i = a, ..., a + len - 1] that
    returns says about the steps. *)
Lemma split_loop_inv precinct target ntrials seed len a r :
  split_loop precinct target ntrials seed (map Z.of_nat (seq a len))
    = Returns r ->
  match r with
  | None =>
      forall j, (a <= j < a + len)%nat ->
        exists b, step_wait precinct ntrials seed (Z.of_nat j) = Returns b
                  /\ fgt b target = false
  | Some (p, avg) =>
      exists k, (a <= k < a + len)%nat
        /\ p = percent_split_ticket_of (Z.of_nat k)
        /\ step_wait precinct ntrials seed (Z.of_nat k) = Returns avg
        /\ fgt avg target = true
        /\ forall j, (a <= j < k)%nat ->
             exists b, step_wait precinct ntrials seed (Z.of_nat j) = Returns b
                       /\ fgt b target = false
  end.
Proof.
  revert a; induction len as [ | len IH]; intros a H.
  - cbn in H. injection H as <-. intros j Hj; lia.
  - cbn [seq map split_loop] in H.
    fold (percent_straight_ticket_of (Z.of_nat a)) in H.
    fold (step_wait precinct ntrials seed (Z.of_nat a)) in H.
    destruct (step_wait precinct ntrials seed (Z.of_nat a)) as [b | e | ] eqn:Ea;
      cbn [bind] in H; try discriminate H.
    destruct (fgt b target) eqn:Hb.
    + injection H as <-. exists a.
      split; [lia | ]. split; [reflexivity | ]. split; [exact Ea | ].
      split; [exact Hb | intros j Hj; lia].
    + specialize (IH (S a) H). destruct r as [[p avg] | ].
      * destruct IH as (k & Hk & Hp & Ek & Hgt & Hpre).
        exists k.
        split; [lia | ]. split; [exact Hp | ]. split; [exact Ek | ].
        split; [exact Hgt | ].
        intros j Hj. destruct (Nat.eq_dec j a) as [-> | Hne];
          [exists b; auto | apply Hpre; lia].
      * intros j Hj. destruct (Nat.eq_dec j a) as [-> | Hne];
          [exists b; auto | apply IH; lia].
Qed.

(** The search loop finds a step that exceeds the target when there is
    one and every step up to it returns. *)
Lemma split_loop_finds precinct target ntrials seed len a :
  (forall j, (a <= j < a + len)%nat ->
     exists b, step_wait precinct ntrials seed (Z.of_nat j) = Returns b) ->
  (exists j b, (a <= j < a + len)%nat
     /\ step_wait precinct ntrials seed (Z.of_nat j) = Returns b
     /\ fgt b target = true) ->
  forall post,
  exists k w, (a <= k < a + len)%nat
    /\ split_loop precinct target ntrials seed
         (map Z.of_nat (seq a len) ++ post)
       = Returns (Some (percent_split_ticket_of (Z.of_nat k), w))
    /\ fgt w target = true.
Proof.
  revert a; induction len as [ | len IH]; intros a Hall (j & b & Hj & Ej & Hb) post;
    [lia | ].
  cbn [seq map app split_loop].
  fold (percent_straight_ticket_of (Z.of_nat a)).
  fold (step_wait precinct ntrials seed (Z.of_nat a)).
  destruct (Hall a ltac:(lia)) as (c & Ec). rewrite Ec; cbn [bind].
  destruct (fgt c target) eqn:Hc.
  - exists a, c. split; [lia | split; [reflexivity | exact Hc] ].
  - destruct (IH (S a)) with (post := post) as (k & w & Hk & E & Hw).
    + intros i Hi. apply Hall; lia.
    + exists j, b. split; [ | split; assumption].
      destruct (Nat.eq_dec j a) as [-> | Hne]; [congruence | lia].
    + exists k, w. split; [lia | split; assumption].
Qed.

(** The search loop hands on the failure of the first step that fails,
    when no step before it exceeds the target. *)
Lemma split_loop_raises precinct target ntrials seed pre k post e :
  Forall (fun j => exists a, step_wait precinct ntrials seed j = Returns a
                             /\ fgt a target = false) pre ->
  step_wait precinct ntrials seed k = Raises e ->
  split_loop precinct target ntrials seed (pre ++ k :: post) = Raises e.
Proof.
  intros Hpre Ek.
  induction Hpre as [ | j idx (a & Ea & Ha) _ IH]; cbn [app split_loop].
  - unfold step_wait, percent_straight_ticket_of in Ek.
    rewrite Ek; reflexivity.
  - unfold step_wait, percent_straight_ticket_of in Ea.
    rewrite Ea; cbn [bind]. rewrite Ha. exact IH.
Qed.

(** [t1 <= t2 < w] gives [t1 < w]. *)
Lemma fle_flt_trans t1 t2 w :
  fle t1 t2 = true -> flt t2 w = true -> flt t1 w = true.
Proof.
  intros H12 H2w.
  pose proof (fle_not_nan_l _ _ H12) as N1.
  pose proof (fle_not_nan_r _ _ H12) as N2.
  assert (Nw : is_nan w = false)
    by (destruct w; auto; destruct t2; discriminate H2w).
  destruct (flt t1 w) eqn:H1w; [reflexivity | ].
  apply flt_key in H1w; auto. apply fle_key in H12; auto.
  assert (H : flt t2 w = false).
  { apply flt_key; auto.
    destruct (fkey t1) as [[a1 b1] c1], (fkey t2) as [[a2 b2] c2],
      (fkey w) as [[a3 b3] c3]; simpl in *; lia. }
  congruence.
Qed.

End SearchFacts.

(** * Further properties of the aggregation and the search *)

Section SearchProperties.

Context {R : RandomSource}.

(** X11: [find_avg_wait_time] raises [IndexError] exactly when [ntrials]
    is zero or negative (the list of averages is then empty); it never
    raises [TypeError] and never blocks. *)
Theorem find_avg_wait_time_outcomes precinct pst ntrials initial_seed :
  (find_avg_wait_time precinct pst ntrials initial_seed = Raises IndexError
   <-> ntrials <= 0)
  /\ find_avg_wait_time precinct pst ntrials initial_seed <> Raises TypeError
  /\ find_avg_wait_time precinct pst ntrials initial_seed <> Blocks.
Proof.
  destruct (Z_le_gt_dec ntrials 0) as [Hn | Hn].
  - rewrite (find_avg_wait_time_no_trials _ _ _ _ Hn).
    repeat split; auto; discriminate.
  - unfold find_avg_wait_time.
    destruct (trials_loop_cases precinct pst initial_seed (py_range ntrials) [])
      as [[_ HR] | [_ HR]]; rewrite HR; cbn [bind app].
    + repeat split; try discriminate. lia.
    + rewrite (sorted_middle_in_range _ ntrials fzero)
        by (rewrite ?length_map, ?py_range_length; lia).
      repeat split; try discriminate. lia.
Qed.

(** X12: the value the end of [find_avg_wait_time] returns for
    [ntrials >= 1] averages without NaN is one of the averages, and it is
    a median of them: at least [ntrials // 2 + 1] averages are [<=] it and
    at least [ntrials - ntrials // 2] are [>=] it. *)
Theorem sorted_middle_is_median avg_wait_lst ntrials :
  1 <= ntrials -> Z.of_nat (length avg_wait_lst) = ntrials ->
  no_nan avg_wait_lst = true ->
  exists m,
    sorted_middle avg_wait_lst ntrials = Returns m
    /\ In m avg_wait_lst
    /\ ntrials / 2 + 1 <= count (fun x => fle x m) avg_wait_lst
    /\ ntrials - ntrials / 2 <= count (fun x => fle m x) avg_wait_lst.
Proof.
  intros Hn HL Hnan.
  set (s := py_sort avg_wait_lst).
  set (k := Z.to_nat (ntrials / 2)).
  assert (Hk : 0 <= ntrials / 2 < ntrials)
    by (split; [apply Z.div_pos; lia | apply Z.div_lt_upper_bound; lia]).
  assert (Hlen : length s = length avg_wait_lst) by apply py_sort_length.
  assert (Hperm : Permutation s avg_wait_lst) by apply py_sort_perm.
  assert (Hasc : ascending s = true) by (apply py_sort_ascending; exact Hnan).
  assert (Hsn : no_nan s = true).
  { apply forallb_forall. intros x Hx.
    apply negb_true_iff, (no_nan_In avg_wait_lst); [exact Hnan | ].
    apply (Permutation_in _ Hperm); exact Hx. }
  exists (nth k s fzero).
  split; [apply sorted_middle_in_range; assumption | ].
  split; [apply (Permutation_in _ Hperm), nth_In; lia | ].
  unfold count.
  rewrite <- (Permutation_filter_length _ _ _ Hperm).
  rewrite <- (Permutation_filter_length (fun x => fle (nth k s fzero) x) _ _ Hperm).
  split.
  - assert (H : (S k <= length (filter (fun x => fle x (nth k s fzero)) s))%nat).
    { apply (filter_length_prefix _ s fzero); [lia | ].
      intros i Hi. apply ascending_nth_le; auto; lia. }
    lia.
  - assert (H : (length s - k
                 <= length (filter (fun x => fle (nth k s fzero) x) s))%nat).
    { apply (filter_length_suffix _ s fzero).
      intros i Hi. apply ascending_nth_le; auto; lia. }
    lia.
Qed.

(** X13: whatever [find_percent_split_ticket] returns is justified by the
    sweep.  A pair with a wait is a percentage [k / 10] of the sweep whose
    median average wait is strictly greater than the target, while that of
    every smaller percentage is not; [(1, None)] means that no percentage
    of the sweep has a wait strictly greater than the target. *)
Theorem split_ticket_result_sound precinct target ntrials seed x w :
  find_percent_split_ticket precinct target ntrials seed = Returns (x, w) ->
  (x = Int 1 /\ w = None
   /\ forall j, 0 <= j <= 10 ->
        exists b, step_wait precinct ntrials seed j = Returns b
                  /\ fgt b target = false)
  \/ (exists k avg,
        0 <= k <= 10
        /\ x = Float (percent_split_ticket_of k) /\ w = Some avg
        /\ step_wait precinct ntrials seed k = Returns avg
        /\ fgt avg target = true
        /\ forall j, 0 <= j < k ->
             exists b, step_wait precinct ntrials seed j = Returns b
                       /\ fgt b target = false).
Proof.
  unfold find_percent_split_ticket.
  change (py_range 11) with (map Z.of_nat (seq 0 11)).
  destruct (split_loop _ _ _ _ _) as [r | e | ] eqn:E; cbn [bind];
    try discriminate.
  pose proof (split_loop_inv _ _ _ _ _ _ _ E) as H.
  destruct r as [[p avg] | ]; intros Hr; injection Hr as <- <-.
  - right. destruct H as (k & Hk & Hp & Ek & Hgt & Hpre).
    exists (Z.of_nat k), avg. split; [lia | ].
    split; [rewrite Hp; reflexivity | ]. split; [reflexivity | ].
    split; [exact Ek | ]. split; [exact Hgt | ].
    intros j Hj. rewrite <- (Z2Nat.id j) by lia. apply Hpre; lia.
  - left. split; [reflexivity | ]. split; [reflexivity | ].
    intros j Hj. rewrite <- (Z2Nat.id j) by lia. apply H; lia.
Qed.

(** X14: the search hands on the failure of the aggregator: when the
    aggregator raises at a percentage of the sweep and no smaller
    percentage has a wait above the target, the search raises the same
    exception; in particular it raises [IndexError] for every target when
    [ntrials] is zero or negative. *)
Theorem split_ticket_search_fails precinct target ntrials seed :
  (forall k e,
     0 <= k <= 10 ->
     (forall j, 0 <= j < k ->
        exists a, step_wait precinct ntrials seed j = Returns a
                  /\ fgt a target = false) ->
     step_wait precinct ntrials seed k = Raises e ->
     find_percent_split_ticket precinct target ntrials seed = Raises e)
  /\ (ntrials <= 0 ->
      find_percent_split_ticket precinct target ntrials seed
        = Raises IndexError).
Proof.
  assert (Hgen : forall k e,
     0 <= k <= 10 ->
     (forall j, 0 <= j < k ->
        exists a, step_wait precinct ntrials seed j = Returns a
                  /\ fgt a target = false) ->
     step_wait precinct ntrials seed k = Raises e ->
     find_percent_split_ticket precinct target ntrials seed = Raises e).
  { intros k e Hk Hpre Ek.
    destruct (py_range_split 11 k ltac:(lia)) as (post & Hsplit).
    unfold find_percent_split_ticket. rewrite Hsplit.
    rewrite (split_loop_raises precinct target ntrials seed
               (py_range k) k post e); auto.
    apply Forall_forall; intros j Hj. apply Hpre, py_range_In, Hj. }
  split; [exact Hgen | ].
  intros Hn. apply (Hgen 0); [lia | intros j Hj; lia | ].
  apply find_avg_wait_time_no_trials; exact Hn.
Qed.

(** X15: lowering the target can only make the search stop earlier: when
    the search with target [t2] returns a percentage and a wait, the search
    with a target [t1 <= t2] returns a percentage of the sweep that is not
    later, with a wait strictly greater than [t1]. *)
Theorem lower_target_stops_no_later precinct t1 t2 ntrials seed p2 w2 :
  fle t1 t2 = true ->
  find_percent_split_ticket precinct t2 ntrials seed
    = Returns (Float p2, Some w2) ->
  exists k1 k2 w1,
    0 <= k1 <= k2 /\ k2 <= 10
    /\ p2 = percent_split_ticket_of k2
    /\ find_percent_split_ticket precinct t1 ntrials seed
         = Returns (Float (percent_split_ticket_of k1), Some w1)
    /\ fgt w1 t1 = true.
Proof.
  intros Ht H. unfold find_percent_split_ticket in *.
  change (py_range 11) with (map Z.of_nat (seq 0 11)) in *.
  destruct (split_loop precinct t2 _ _ _) as [r | e | ] eqn:E; cbn [bind] in H;
    try discriminate H.
  pose proof (split_loop_inv _ _ _ _ _ _ _ E) as Hinv.
  destruct r as [[p avg] | ]; [ | discriminate H].
  injection H as -> ->.
  destruct Hinv as (k2 & Hk2 & Hp & Ek & Hgt & Hpre).
  replace 11%nat with (S k2 + (10 - k2))%nat by lia.
  rewrite seq_app, map_app.
  destruct (split_loop_finds precinct t1 ntrials seed (S k2) 0)
    with (post := map Z.of_nat (seq (0 + S k2) (10 - k2)))
    as (k1 & w1 & Hk1 & E1 & Hw1).
  - intros j Hj. destruct (Nat.eq_dec j k2) as [-> | Hne]; [eauto | ].
    destruct (Hpre j ltac:(lia)) as (b & Eb & _). eauto.
  - exists k2, w2. split; [lia | ]. split; [exact Ek | ].
    unfold fgt in *. apply (fle_flt_trans t1 t2); assumption.
  - exists (Z.of_nat k1), (Z.of_nat k2), w1. rewrite E1; cbn [bind].
    repeat split; auto; lia.
Qed.

End SearchProperties.

(** * Further facts about floats: signs, exact zero, conversion of ints *)

Section FloatSignFacts.

(** Rounding a non-negative mantissa as a positive float gives [+0.0], a
    positive float or [+inf]. *)
Lemma binary_round_aux_sign_clear m e l :
  0 <= m -> sign_clear (binary_round_aux prec emax false m e l) = true.
Proof.
  intros H; unfold binary_round_aux.
  pose proof (shr_fexp_nonneg m e l H) as H1.
  destruct (shr_fexp prec emax m e l) as [mrs' e']; simpl in H1.
  pose proof (shr_fexp_nonneg _ e' loc_Exact
                (round_nearest_even_nonneg _ (loc_of_shr_record mrs') H1)) as H2.
  destruct (shr_fexp prec emax _ e' loc_Exact) as [mrs'' e'']; simpl in H2.
  destruct (shr_m mrs'') as [ | p | p]; try reflexivity; try lia.
  destruct (e'' <=? emax - prec); reflexivity.
Qed.

(** Adding a strictly positive float keeps the sign bit clear. *)
Lemma fadd_sign_clear x g :
  sign_clear x = true -> flt fzero g = true -> sign_clear (fadd x g) = true.
Proof.
  intros Hx Hg; unfold fadd.
  destruct x as [sx | sx | | sx mx ex]; try discriminate Hx;
    destruct sx; try discriminate Hx;
    destruct g as [sg | sg | | sg mg eg]; try discriminate Hg;
    destruct sg; try discriminate Hg; try reflexivity.
  cbv beta iota delta [SFadd cond_Zopp]. cbn [Z.add].
  unfold binary_normalize, binary_round.
  destruct (shl_align _ _ _) as [mz ez].
  apply binary_round_aux_sign_clear; lia.
Qed.

(** A float with a clear sign bit that is not greater than an int is
    finite. *)
Lemma sign_clear_not_fgt_int x n :
  sign_clear x = true -> fgt_int x n = false -> is_finite x = true.
Proof.
  destruct x as [s | s | | s m e]; try discriminate; auto.
  destruct s; discriminate.
Qed.

(** The difference of a finite float and itself is [+0.0]. *)
Lemma fsub_diag x :
  sign_clear x = true -> is_finite x = true -> fsub x x = fzero.
Proof.
  intros Hs Hf; unfold fsub.
  destruct x as [s | s | | s m e]; try discriminate Hf;
    destruct s; try discriminate Hs; [reflexivity | ].
  cbv beta iota zeta delta [SFsub].
  match goal with
  | |- binary_normalize _ _ ?t _ _ = _ =>
      assert (Hz : t = 0) by apply Z.sub_diag; rewrite Hz
  end.
  reflexivity.
Qed.

Lemma shr_1_div2 mrs :
  0 <= shr_m mrs -> shr_m (shr_1 mrs) = shr_m mrs / 2.
Proof.
  destruct mrs as [m r s]; cbn [shr_m]; intros H.
  destruct m as [ | [p | p | ] | p]; cbn [shr_1 shr_m]; try lia;
    first [ apply Z.div_unique with (r := 0); lia
          | apply Z.div_unique with (r := 1); lia ].
Qed.

(** Shifting a mantissa right by [k] bits divides it by [2 ^ k]. *)
Lemma iter_shr_1_div k mrs :
  0 <= shr_m mrs ->
  shr_m (iter_pos shr_1 k mrs) = shr_m mrs / 2 ^ Z.pos k.
Proof.
  revert mrs; induction k as [k IH | k IH | ]; intros mrs H; cbn [iter_pos].
  - assert (H1 : 0 <= shr_m (shr_1 mrs)) by (apply shr_1_nonneg; exact H).
    assert (H2 : 0 <= shr_m (iter_pos shr_1 k (shr_1 mrs)))
      by (rewrite IH by exact H1; apply Z.div_pos; [exact H1 | lia]).
    rewrite IH, IH, shr_1_div2 by assumption.
    rewrite !Z.div_div by lia.
    f_equal.
    replace (Z.pos k~1) with (1 + Z.pos k + Z.pos k) by lia.
    rewrite !Z.pow_add_r by lia. rewrite Z.pow_1_r. ring.
  - assert (H2 : 0 <= shr_m (iter_pos shr_1 k mrs))
      by (rewrite IH by exact H; apply Z.div_pos; [exact H | lia]).
    rewrite IH, IH by assumption.
    rewrite Z.div_div by lia.
    f_equal.
    replace (Z.pos k~0) with (Z.pos k + Z.pos k) by lia.
    rewrite Z.pow_add_r by lia. reflexivity.
  - rewrite shr_1_div2 by exact H. reflexivity.
Qed.

(** A positive number with [d] binary digits is at least [2 ^ (d - 1)]. *)
Lemma digits2_pos_lower p : 2 ^ (Z.pos (digits2_pos p) - 1) <= Z.pos p.
Proof.
  induction p as [p IH | p IH | ]; cbn [digits2_pos].
  - rewrite Pos2Z.inj_succ.
    replace (Z.succ (Z.pos (digits2_pos p)) - 1)
      with (Z.succ (Z.pos (digits2_pos p) - 1)) by lia.
    rewrite Z.pow_succ_r by lia. lia.
  - rewrite Pos2Z.inj_succ.
    replace (Z.succ (Z.pos (digits2_pos p)) - 1)
      with (Z.succ (Z.pos (digits2_pos p) - 1)) by lia.
    rewrite Z.pow_succ_r by lia. lia.
  - cbn. lia.
Qed.

(** Above the least exponent, the shift that brings a positive mantissa
    into the format leaves it positive. *)
Lemma shr_fexp_positive m e l :
  0 < m -> emin prec emax <= e ->
  0 < shr_m (fst (shr_fexp prec emax m e l))
  /\ emin prec emax <= snd (shr_fexp prec emax m e l).
Proof.
  intros Hm He. unfold shr_fexp, shr.
  destruct m as [ | p | p]; try lia. cbn [Zdigits2].
  set (d := Z.pos (digits2_pos p)).
  assert (Hd : 2 ^ (d - 1) <= Z.pos p) by apply digits2_pos_lower.
  destruct (fexp prec emax (d + e) - e) as [ | k | k] eqn:Ek;
    cbn [fst snd]; rewrite ?shr_record_of_loc_m; try (split; lia).
  assert (Hk : Z.pos k <= d - 1).
  { unfold fexp in Ek. unfold prec in *. lia. }
  split; [ | lia].
  rewrite iter_shr_1_div by (rewrite shr_record_of_loc_m; lia).
  rewrite shr_record_of_loc_m.
  apply Z.div_str_pos. split; [apply Z.pow_pos_nonneg; lia | ].
  etransitivity; [ | exact Hd].
  apply Z.pow_le_mono_r; lia.
Qed.

Lemma round_nearest_even_positive m l : 0 < m -> 0 < round_nearest_even m l.
Proof.
  intros H; destruct l as [ | [ | | ] ]; simpl; try lia.
  destruct (Z.even m); lia.
Qed.

(** Rounding a positive mantissa above the least exponent gives a
    positive number or [+inf], never a zero. *)
Lemma binary_round_aux_positive m e l :
  0 < m -> emin prec emax <= e ->
  match binary_round_aux prec emax false m e l with
  | S754_finite false _ _ | S754_infinity false => True
  | _ => False
  end.
Proof.
  intros Hm He; unfold binary_round_aux.
  destruct (shr_fexp_positive m e l Hm He) as [H1 H1e].
  destruct (shr_fexp prec emax m e l) as [mrs' e']; cbn [fst snd] in H1, H1e.
  destruct (shr_fexp_positive _ e' loc_Exact
              (round_nearest_even_positive _ (loc_of_shr_record mrs') H1) H1e)
    as [H2 _].
  destruct (shr_fexp prec emax _ e' loc_Exact) as [mrs'' e'']; cbn [fst] in H2.
  destruct (shr_m mrs'') as [ | p | p]; try lia.
  destruct (e'' <=? emax - prec); exact I.
Qed.

(** The float of a positive int is a positive number or [+inf]. *)
Lemma float_of_int_positive p :
  match float_of_int (Z.pos p) with
  | S754_finite false _ _ | S754_infinity false => True
  | _ => False
  end.
Proof.
  unfold float_of_int, binary_normalize, binary_round.
  destruct (shl_align p 0 _) as [mz ez] eqn:E.
  apply binary_round_aux_positive; [lia | ].
  unfold shl_align in E.
  destruct (fexp prec emax (Z.pos (digits2_pos p) + 0) - 0) as [ | k | k] eqn:Ek;
    injection E as <- <-; try (unfold emin, prec, emax; lia).
  unfold fexp, emin, prec, emax in *. lia.
Qed.

(** [0.0 / n] is [0.0] for every length [n >= 1]. *)
Lemma fdiv_fzero_length n :
  fdiv fzero (float_of_int (Z.of_nat (S n))) = fzero.
Proof.
  cbn [Z.of_nat].
  pose proof (float_of_int_positive (Pos.of_succ_nat n)) as H.
  destruct (float_of_int (Z.pos (Pos.of_succ_nat n))) as [s | s | | s m e];
    try destruct s; try destruct H; reflexivity.
Qed.

End FloatSignFacts.

(** * Further properties: waits that are exactly zero *)

Section ZeroWaitProperties.

Context {R : RandomSource}.

(** While fewer voters remain than booths are free and the gaps are
    strictly positive, every voter waits [+0.0] minutes. *)
Lemma simulate_loop_zero_wait self pst std n st :
  gaps_positive self pst std ->
  (n <> O -> qsize (st_booths st) + Z.of_nat n <= maxsize (st_booths st)) ->
  sign_clear (st_time st) = true ->
  Forall (fun v => get_wait v = Some fzero) (st_voters st) ->
  exists st',
    simulate_loop self pst std n st = Returns st'
    /\ Forall (fun v => get_wait v = Some fzero) (st_voters st').
Proof.
  intros Hgap Hq Ht Hw.
  destruct (simulate_loop_rule self pst std
              (fun k s =>
                 (k <> O ->
                  qsize (st_booths s) + Z.of_nat k <= maxsize (st_booths s))
                 /\ sign_clear (st_time s) = true
                 /\ Forall (fun v => get_wait v = Some fzero) (st_voters s))
              (fun s => Forall (fun v => get_wait v = Some fzero) (st_voters s)))
    with (n := n) (st := st) as (st' & E & H); [tauto | | auto | eauto].
  clear n st Hq Ht Hw.
  intros k s (Hq & Ht & Hw). cbv zeta.
  rewrite next_voter_eq; cbv zeta; cbn [fst snd new_Voter arrival_time].
  specialize (Hgap (st_rng s)).
  set (r := gen_voter_parameters _ _ _ _ (st_rng s)) in *.
  set (arrival := fadd (st_time s) (fst (fst r))).
  assert (Ha : sign_clear arrival = true) by (apply fadd_sign_clear; auto).
  destruct (fgt_int arrival _) eqn:C; [exact Hw | ].
  assert (Hlt : qsize (st_booths s) < maxsize (st_booths s))
    by (specialize (Hq ltac:(discriminate)); lia).
  assert (Hb : bounded (st_booths s)) by (right; lia).
  destruct (simulate_single_vote_size self
              (new_Voter arrival (snd (fst r))) (st_booths s) Hb)
    as (v' & b' & E & Hav & _ & Hm & _ & Hnf & _).
  exists v', b'. split; [exact E | ].
  cbn [st_booths st_voters st_time new_Voter arrival_time] in *.
  destruct Hnf as (Hs & _ & Hq'); [apply pq_full_false; right; exact Hlt | ].
  split; [intros _; specialize (Hq ltac:(discriminate)); lia | ].
  split; [exact Ha | ].
  apply Forall_app; split; [exact Hw | ].
  constructor; [ | constructor].
  unfold get_wait. rewrite Hs, Hav. f_equal.
  apply fsub_diag; [exact Ha | ].
  apply (sign_clear_not_fgt_int _ _ Ha C).
Qed.

Lemma simulate_zero_wait self pst std seed :
  max_num_voters self <= num_booths self ->
  gaps_positive self pst std ->
  exists voters,
    simulate self pst std seed = Returns voters
    /\ Forall (fun v => get_wait v = Some fzero) voters.
Proof.
  intros Hn Hgap.
  destruct (simulate_loop_zero_wait self pst std
              (Z.to_nat (max_num_voters self)) (sim_init self seed) Hgap)
    as (st' & E & Hw).
  - unfold sim_init, new_VotingBooths, qsize; cbn. lia.
  - reflexivity.
  - constructor.
  - exists (st_voters st'). unfold simulate; rewrite E; cbn [bind]. auto.
Qed.

Lemma fold_left_fadd_zero voters :
  Forall (fun v => get_wait v = Some fzero) voters ->
  fold_left fadd (map wait_of voters) fzero = fzero.
Proof.
  induction 1 as [ | v r Hv _ IH]; [reflexivity | ].
  cbn [map fold_left].
  assert (Hw : wait_of v = fzero).
  { unfold get_wait, wait_of in *.
    destruct (start_time v); [injection Hv; auto | discriminate Hv]. }
  rewrite Hw. exact IH.
Qed.

(** X16: with at least as many booths as voters and strictly positive
    gaps, [get_wait] is exactly [0.0] for every voter of the result. *)
Theorem enough_booths_zero_wait self pst std seed :
  max_num_voters self <= num_booths self ->
  gaps_positive self pst std ->
  exists voters,
    simulate self pst std seed = Returns voters
    /\ Forall (fun v => get_wait v = Some fzero) voters
    /\ py_sum (map get_wait voters) = Returns fzero.
Proof.
  intros Hn Hgap.
  destruct (simulate_zero_wait self pst std seed Hn Hgap) as (voters & E & Hw).
  destruct (simulate_returns self pst std seed) as (voters' & E' & HA & _).
  rewrite E in E'; injection E' as <-.
  exists voters. split; [exact E | ]. split; [exact Hw | ].
  unfold py_sum. rewrite (py_sum_from_admitted _ _ HA).
  rewrite fold_left_fadd_zero; auto.
Qed.

(** X17: with at least as many booths as voters and strictly positive
    gaps, [find_avg_wait_time] returns exactly [0.0] whenever every trial
    admits a voter. *)
Theorem enough_booths_zero_average precinct pst ntrials initial_seed :
  d_num_voters precinct <= d_num_booths precinct ->
  gaps_positive (Precinct_of precinct) pst
    (d_straight_ticket_duration precinct) ->
  1 <= ntrials ->
  (forall i, 0 <= i < ntrials ->
     trial_voters precinct pst initial_seed i <> []) ->
  find_avg_wait_time precinct pst ntrials initial_seed = Returns fzero.
Proof.
  intros Hn Hgap Hnt Hne.
  assert (Hmean : forall i, 0 <= i < ntrials ->
            mean_wait (trial_voters precinct pst initial_seed i) = fzero).
  { intros i Hi. specialize (Hne i Hi). unfold trial_voters in *.
    destruct (simulate_zero_wait (Precinct_of precinct) pst
                (d_straight_ticket_duration precinct) (initial_seed + i)
                Hn Hgap) as (voters & E & Hw).
    rewrite E in *; cbn [returned] in *.
    unfold mean_wait. rewrite (fold_left_fadd_zero _ Hw).
    destruct voters as [ | v r]; [destruct Hne; reflexivity | ].
    cbn [length]. apply fdiv_fzero_length. }
  unfold find_avg_wait_time.
  destruct (trials_loop_cases precinct pst initial_seed (py_range ntrials) [])
    as [[HE _] | [_ HR]].
  - apply Exists_exists in HE as (i & Hi & Hempty).
    apply py_range_In in Hi. destruct (Hne i Hi Hempty).
  - rewrite HR; cbn [bind app].
    set (l := map _ (py_range ntrials)).
    rewrite (sorted_middle_in_range l ntrials fzero Hnt)
      by (unfold l; rewrite length_map, py_range_length; lia).
    f_equal.
    assert (Hin : In (nth (Z.to_nat (ntrials / 2)) (py_sort l) fzero) l).
    { apply (Permutation_in _ (py_sort_perm l)), nth_In.
      rewrite py_sort_length. unfold l.
      rewrite length_map, py_range_length.
      assert (ntrials / 2 < ntrials) by (apply Z.div_lt_upper_bound; lia).
      assert (0 <= ntrials / 2) by (apply Z.div_pos; lia). lia. }
    unfold l in Hin. apply in_map_iff in Hin as (i & Heq & Hi).
    unfold l. rewrite <- Heq. apply Hmean, py_range_In, Hi.
Qed.

End ZeroWaitProperties.

(** * Facts and properties of cmd *)

Section CmdFacts.

Context {R : RandomSource}.









Lemma py_index_head {A : Type} (x : A) (l : list A) :
  py_index (x :: l) 0 = Returns x.
Proof.
  unfold py_index. cbn [length Z.ltb Z.compare Z.leb].
  replace (0 <? Z.of_nat (S (length l))) with true
    by (symmetry; apply Z.ltb_lt; lia).
  reflexivity.
Qed.

End CmdFacts.

Section CmdProperties.

Context {R : RandomSource}.


(** X19: with a target that no percentage of the sweep exceeds, [cmd]
    prints nothing and fails with [TypeError]: the search returns
    [(1, None)], and [None] cannot be formatted as a number. *)
Theorem cmd_target_never_exceeded_fails precinct rest seed target print_voters :
  (forall j, 0 <= j <= 10 ->
     exists a, step_wait precinct 20 seed j = Returns a
               /\ fgt a target = false) ->
  cmd (precinct :: rest) seed (Some target) print_voters = Fails [] TypeError.
Proof.
  intros Hall. unfold cmd. rewrite py_index_head.
  unfold find_percent_split_ticket.
  rewrite split_loop_none; [reflexivity | ].
  apply Forall_forall; intros j Hj. apply py_range_In in Hj.
  apply Hall; lia.
Qed.

(** X20: with a target, [cmd] prints that the waiting times are always
    below the target exactly when the median average wait with 0 percent
    of split-ticket voters is strictly greater than the target. *)
Theorem cmd_always_below_iff precinct rest seed target print_voters :
  cmd (precinct :: rest) seed (Some target) print_voters
    = Done [AlwaysBelow target (d_name precinct)]
  <-> exists a, step_wait precinct 20 seed 0 = Returns a
                /\ fgt a target = true.
Proof.
  unfold cmd. rewrite py_index_head. split.
  - unfold find_percent_split_ticket.
    change (py_range 11) with (map Z.of_nat (seq 0 11)).
    destruct (split_loop _ _ _ _ _) as [r | e | ] eqn:E; cbn [bind];
      try discriminate.
    pose proof (split_loop_inv _ _ _ _ _ _ _ E) as H.
    destruct r as [[p avg] | ]; [ | discriminate].
    destruct H as (k & Hk & -> & Ek & Hgt & _).
    destruct (number_is_zero (Float (percent_split_ticket_of (Z.of_nat k))))
      eqn:Hz; [ | discriminate].
    intros _.
    assert (Hk0 : k = O).
    { do 11 (destruct k as [ | k]; [try reflexivity; vm_compute in Hz;
                                    discriminate Hz | ]).
      lia. }
    subst k. exists avg. auto.
  - intros (a & Ea & Hgt).
    unfold find_percent_split_ticket.
    change (py_range 11) with ([] ++ 0 :: map Z.of_nat (seq 1 10)).
    rewrite (split_loop_first precinct target 20 seed [] 0 _ a);
      [reflexivity | constructor | exact Ea | exact Hgt].
Qed.

End CmdProperties.

(** * Further properties on concrete runs *)

(** X4 on the trial of [no_booth] with seed 10. *)
Lemma no_booth_no_wait_witness :
  exists voters,
    @simulate script (Precinct_of no_booth) fzero fzero 10 = Returns voters
    /\ Forall (fun v => start_time v = Some (arrival_time v)) voters.
Proof.
  apply (@no_booth_no_wait script (Precinct_of no_booth) fzero fzero 10).
  vm_compute; discriminate.
Defined.

(** X6 on the trial of [one_booth] with seed 10. *)
Lemma single_booth_one_at_a_time_witness :
  exists voters,
    @simulate script (Precinct_of one_booth) fzero fzero 10 = Returns voters
    /\ consecutive leaves_before voters.
Proof.
  apply (@single_booth_one_at_a_time script (Precinct_of one_booth)
           fzero fzero 10).
  - reflexivity.
  - script_finite.
Defined.

(** X7: three more voters to consider in [one_booth]. *)
Lemma larger_max_num_voters_appends_witness :
  exists voters extra,
    @simulate script (Precinct_of one_booth) fzero fzero 10 = Returns voters
    /\ @simulate script
         (with_max_num_voters (Precinct_of one_booth)
            (max_num_voters (Precinct_of one_booth) + 3))
         fzero fzero 10 = Returns (voters ++ extra).
Proof.
  apply (@larger_max_num_voters_appends script (Precinct_of one_booth)
           fzero fzero 10 3).
  lia.
Defined.

(** X8: [never_open] opened for one hour. *)
Lemma longer_hours_append_witness :
  exists voters extra,
    @simulate script (Precinct_of never_open) fzero fzero 10 = Returns voters
    /\ @simulate script (with_hours_open (Precinct_of never_open) 1)
         fzero fzero 10 = Returns (voters ++ extra).
Proof.
  apply (@longer_hours_append script (Precinct_of never_open) fzero fzero 10 1).
  vm_compute; discriminate.
Defined.

(** X9 on [never_open]. *)
Lemma closed_precinct_divides_by_zero_witness :
  @find_avg_wait_time script never_open fzero 3 10 = Raises ZeroDivisionError.
Proof.
  apply (@closed_precinct_divides_by_zero script never_open fzero 3 10).
  - vm_compute; discriminate.
  - intros [seed k]; reflexivity.
  - lia.
Defined.

(** X10 on a precinct without voters to consider. *)
Lemma no_voters_divides_by_zero_witness :
  @find_avg_wait_time script
     {| d_name := "no voters"; d_hours_open := 1; d_num_voters := 0;
        d_num_booths := 1; d_arrival_rate := float_of_int 1;
        d_voting_duration_rate := float_of_int 1;
        d_percent_straight_ticket := fzero;
        d_straight_ticket_duration := fzero |} fzero 3 10
    = Raises ZeroDivisionError.
Proof.
  apply @no_voters_divides_by_zero; [vm_compute; discriminate | lia].
Defined.

(** X12 on the averages 3, 1 and 2. *)
Lemma sorted_middle_is_median_witness :
  exists m,
    sorted_middle [float_of_int 3; float_of_int 1; float_of_int 2] 3
      = Returns m
    /\ In m [float_of_int 3; float_of_int 1; float_of_int 2]
    /\ 3 / 2 + 1
       <= count (fun x => fle x m)
            [float_of_int 3; float_of_int 1; float_of_int 2]
    /\ 3 - 3 / 2
       <= count (fun x => fle m x)
            [float_of_int 3; float_of_int 1; float_of_int 2].
Proof.
  apply (sorted_middle_is_median
           [float_of_int 3; float_of_int 1; float_of_int 2] 3);
    [lia | reflexivity | vm_compute; reflexivity].
Defined.

(** X13 on the search of [one_booth] with a target of half a minute. *)
Lemma split_ticket_result_sound_witness :
  exists k avg,
    0 <= k <= 10
    /\ @step_wait script one_booth 3 10 k = Returns avg
    /\ fgt avg (fdiv (float_of_int 1) (float_of_int 2)) = true.
Proof.
  destruct (@split_ticket_result_sound script one_booth
              (fdiv (float_of_int 1) (float_of_int 2)) 3 10
              (Float (percent_split_ticket_of 2)) (Some (float_of_int 2)))
    as [(Hx & _) | (k & avg & Hk & _ & _ & Ek & Hgt & _)].
  - vm_compute; reflexivity.
  - discriminate Hx.
  - exists k, avg. auto.
Defined.

(** X14 on a search without trials. *)
Lemma split_ticket_search_fails_witness :
  @find_percent_split_ticket script one_booth fzero 0 10 = Raises IndexError.
Proof.
  apply (proj2 (@split_ticket_search_fails script one_booth fzero 0 10)). lia.
Defined.

(** X15: from a target of one minute down to half a minute. *)
Lemma lower_target_stops_no_later_witness :
  exists k1 k2 w1,
    0 <= k1 <= k2 /\ k2 <= 10
    /\ percent_split_ticket_of 2 = percent_split_ticket_of k2
    /\ @find_percent_split_ticket script one_booth
         (fdiv (float_of_int 1) (float_of_int 2)) 3 10
         = Returns (Float (percent_split_ticket_of k1), Some w1)
    /\ fgt w1 (fdiv (float_of_int 1) (float_of_int 2)) = true.
Proof.
  apply (@lower_target_stops_no_later script one_booth
           (fdiv (float_of_int 1) (float_of_int 2)) (float_of_int 1) 3 10
           (percent_split_ticket_of 2) (float_of_int 2));
    vm_compute; reflexivity.
Defined.

(** X16 on the trial of [many_booths] with seed 10. *)
Lemma enough_booths_zero_wait_witness :
  exists voters,
    @simulate script (Precinct_of many_booths) fzero fzero 10 = Returns voters
    /\ Forall (fun v => get_wait v = Some fzero) voters
    /\ py_sum (map get_wait voters) = Returns fzero.
Proof.
  apply (@enough_booths_zero_wait script (Precinct_of many_booths)
           fzero fzero 10).
  - vm_compute; discriminate.
  - intros [seed k]; reflexivity.
Defined.

(** X17 on three trials of [many_booths] from seed 10. *)
Lemma enough_booths_zero_average_witness :
  @find_avg_wait_time script many_booths fzero 3 10 = Returns fzero.
Proof.
  apply (@enough_booths_zero_average script many_booths fzero 3 10).
  - vm_compute; discriminate.
  - intros [seed k]; reflexivity.
  - lia.
  - intros i Hi. assert (Hc : i = 0 \/ i = 1 \/ i = 2) by lia.
    destruct Hc as [-> | [-> | ->]]; vm_compute; discriminate.
Defined.

(** X19: [one_booth] never waits more than five minutes. *)
Lemma cmd_target_never_exceeded_fails_witness :
  @cmd script [one_booth] 10 (Some (float_of_int 5)) false
    = Fails [] TypeError.
Proof.
  apply (@cmd_target_never_exceeded_fails script one_booth [] 10
           (float_of_int 5) false).
  intros j Hj.
  assert (Hc : j = 0 \/ j = 1 \/ j = 2 \/ j = 3 \/ j = 4 \/ j = 5 \/ j = 6
               \/ j = 7 \/ j = 8 \/ j = 9 \/ j = 10) by lia.
  repeat (destruct Hc as [-> | Hc]); try subst j;
    first [ exists fzero; split; vm_compute; reflexivity
          | exists (float_of_int 1); split; vm_compute; reflexivity ].
Defined.
